(** * GRC domain models (TypeScript implementation): a shallow embedding

  The embedding follows the TypeScript sources file by file:

  - [JS]             the fragment of the language semantics the domain code
                     relies on: strings as UTF-16 code units, [trim],
                     [Date] comparison, the ambient clock, IEEE numbers;
  - [ResultCore]     shared/result.ts;
  - [ValueObjects]   shared/value-objects.ts;
  - [ControlModel]   domain/control.ts;
  - [FrameworkModel] domain/framework.ts;
  - [EvidenceModel]  domain/evidence.ts;
  - [RiskModel]      domain/risk.ts.

  The second half of the file states and proves the properties of the
  specification against these definitions. *)

From Stdlib Require Import ZArith NArith List Bool String Ascii Lia.
From Stdlib Require Import DecimalString DecimalNat.
From Stdlib Require Import Floats.SpecFloat.
Import ListNotations.

Set Implicit Arguments.

(* ===================================================================== *)
(** * Language-level semantics                                            *)
(* ===================================================================== *)

Module JS.

(** ** Strings

    A JavaScript string is a finite sequence of UTF-16 code units. *)

Definition code_unit := N.
Definition jsstring := list code_unit.

(** An ASCII literal of the source, as a JavaScript string. *)
Definition js (s : string) : jsstring :=
  map N_of_ascii (list_ascii_of_string s).

(** ToBoolean on a string: only the empty string is falsy. *)
Definition truthy (s : jsstring) : bool :=
  match s with
  | [] => false
  | _ :: _ => true
  end.

(** Strict equality on strings (also SameValueZero, used by
    [Array.prototype.includes]): same sequence of code units. *)
Fixpoint str_eqb (a b : jsstring) : bool :=
  match a, b with
  | [], [] => true
  | x :: a', y :: b' => N.eqb x y && str_eqb a' b'
  | _, _ => false
  end.

(** ECMAScript [WhiteSpace] and [LineTerminator] code points, the
    characters [String.prototype.trim] strips. *)
Definition isWhiteSpace (c : code_unit) : bool :=
  ((c =? 0x0009) || (c =? 0x000B) || (c =? 0x000C) || (c =? 0xFEFF)
   || (c =? 0x0020) || (c =? 0x00A0) || (c =? 0x1680)
   || ((0x2000 <=? c) && (c <=? 0x200A))
   || (c =? 0x202F) || (c =? 0x205F) || (c =? 0x3000)
   || (c =? 0x000A) || (c =? 0x000D) || (c =? 0x2028) || (c =? 0x2029))%N.

Fixpoint trimStart (s : jsstring) : jsstring :=
  match s with
  | [] => []
  | c :: s' => if isWhiteSpace c then trimStart s' else s
  end.

Definition trimEnd (s : jsstring) : jsstring :=
  rev (trimStart (rev s)).

Definition trim (s : jsstring) : jsstring :=
  trimEnd (trimStart s).

(** The test the factories apply to a required text field:
    [!s || s.trim().length === 0]. *)
Definition blank (s : jsstring) : bool :=
  negb (truthy s) || (List.length (trim s) =? 0)%nat.

(** [Array.prototype.includes] on an array of strings. *)
Fixpoint includes (l : list jsstring) (x : jsstring) : bool :=
  match l with
  | [] => false
  | y :: l' => str_eqb y x || includes l' x
  end.

(** [\d] of a regular expression without the unicode flag. *)
Definition isDigit (c : code_unit) : bool :=
  ((0x30 <=? c) && (c <=? 0x39))%N.

(** ** Numbers

    A [number] is an IEEE 754 binary64 value.  [spec_float] is the
    specification-level representation of the Standard Library; the
    binary64 values are those with [valid_binary 53 1024].  The
    relational operators [<] and [>] are [SFltb]: every comparison that
    involves NaN is false, and the two zeros compare equal. *)

Definition number := spec_float.

Definition is_binary64 (x : number) : bool := valid_binary 53 1024 x.

Definition num_lt (x y : number) : bool := SFltb x y.
Definition num_gt (x y : number) : bool := SFltb y x.
Definition num_le (x y : number) : bool := SFleb x y.

(** The literals [0] and [100]. *)
Definition num_0 : number := S754_zero false.
Definition num_100 : number :=
  S754_finite false 7036874417766400 (-46).

Definition isNaN (x : number) : bool :=
  match x with
  | S754_nan => true
  | _ => false
  end.

(** [Number.isInteger]. *)
Definition isInteger (x : number) : bool :=
  match x with
  | S754_zero _ => true
  | S754_finite _ m e =>
      (0 <=? e)%Z || (Z.pos m mod 2 ^ (- e) =? 0)%Z
  | _ => false
  end.

(** ** Dates

    A [Date] holds a time value: an integral number of milliseconds
    since the epoch, or NaN for an invalid date.  Relational operators
    on dates compare the time values as numbers, so a comparison with
    an invalid date is false. *)

Inductive Date : Type :=
| DateOf (t : Z)
| InvalidDate.

Definition date_lt (a b : Date) : bool :=
  match a, b with
  | DateOf x, DateOf y => (x <? y)%Z
  | _, _ => false
  end.

Definition date_le (a b : Date) : bool :=
  match a, b with
  | DateOf x, DateOf y => (x <=? y)%Z
  | _, _ => false
  end.

Definition date_gt (a b : Date) : bool := date_lt b a.

(** ** The ambient clock

    [new Date()] reads the wall clock.  The clock is the sequence of
    the readings still to come; a computation that reads it is a state
    transformer over that sequence. *)

Definition Clock := nat -> Z.

Definition Eff (A : Type) : Type := Clock -> A * Clock.

Definition ret {A} (a : A) : Eff A := fun clk => (a, clk).

Definition bind {A B} (m : Eff A) (k : A -> Eff B) : Eff B :=
  fun clk => let (a, clk') := m clk in k a clk'.

(** The time [new Date()] would return next. *)
Definition now (clk : Clock) : Z := clk 0%nat.

Definition tick (clk : Clock) : Clock := fun n => clk (S n).

Definition newDate : Eff Date :=
  fun clk => (DateOf (now clk), tick clk).

(** The value a computation returns under a given clock. *)
Definition run {A} (m : Eff A) (clk : Clock) : A := fst (m clk).

(** A clock that stands still, as under fake timers. *)
Definition frozen (t : Z) : Clock := fun _ => t.

End JS.

Import JS.

Declare Scope eff_scope.
Delimit Scope eff_scope with eff.
Notation "x <- m ;; k" := (bind m (fun x => k))
  (at level 61, m at next level, right associativity) : eff_scope.

(* ===================================================================== *)
(** * shared/result.ts                                                    *)
(* ===================================================================== *)

Module ResultCore.

Inductive Result (T E : Type) : Type :=
| ok (value : T)
| err (error : E).

Arguments ok {T E} value.
Arguments err {T E} error.

Definition is_ok {T E} (r : Result T E) : bool :=
  match r with
  | ok _ => true
  | err _ => false
  end.

Definition map {T U E} (result : Result T E) (fn : T -> U) : Result U E :=
  match result with
  | ok value => ok (fn value)
  | err error => err error
  end.

Definition flatMap {T U E} (result : Result T E) (fn : T -> Result U E)
  : Result U E :=
  match result with
  | ok value => fn value
  | err error => err error
  end.

Definition mapError {T E F} (result : Result T E) (fn : E -> F)
  : Result T F :=
  match result with
  | err error => err (fn error)
  | ok value => ok value
  end.



Record ValidationError : Type := validationError {
  field : jsstring;
  message : jsstring;
  code : jsstring
}.

End ResultCore.

Import ResultCore.

(* ===================================================================== *)
(** * shared/value-objects.ts                                             *)
(* ===================================================================== *)

Module ValueObjects.

(** Branded types exist at compile time only: at run time an identifier
    is the string it was made from, and a percentage is a number. *)
Definition FrameworkId := jsstring.
Definition ControlId := jsstring.
Definition EvidenceId := jsstring.
Definition RiskId := jsstring.
Definition UserId := jsstring.
Definition IntegrationId := jsstring.

Definition createId (value typeName : jsstring)
  : Result jsstring ValidationError :=
  if negb (truthy value) || (List.length (trim value) =? 0)%nat
  then err (validationError (js "id")
                            (typeName ++ js " cannot be empty")
                            (js "EMPTY_ID"))
  else ok value.

Definition frameworkId (value : jsstring) : Result FrameworkId ValidationError :=
  createId value (js "FrameworkId").

Definition controlId (value : jsstring) : Result ControlId ValidationError :=
  createId value (js "ControlId").

Definition evidenceId (value : jsstring) : Result EvidenceId ValidationError :=
  createId value (js "EvidenceId").

Definition riskId (value : jsstring) : Result RiskId ValidationError :=
  createId value (js "RiskId").

Definition userId (value : jsstring) : Result UserId ValidationError :=
  createId value (js "UserId").

Definition integrationId (value : jsstring)
  : Result IntegrationId ValidationError :=
  createId value (js "IntegrationId").

Definition Percentage := number.

Definition percentage (value : number) : Result Percentage ValidationError :=
  if num_lt value num_0 || num_gt value num_100
  then err (validationError (js "percentage")
                            (js "Percentage must be between 0 and 100")
                            (js "INVALID_PERCENTAGE"))
  else ok value.

Definition Url := jsstring.

End ValueObjects.

Import ValueObjects.

(* ===================================================================== *)
(** * domain/control.ts                                                   *)
(* ===================================================================== *)

Module ControlModel.

(** The discriminated union: one constructor per value of the [type]
    tag, carrying that variant's payload. *)
Inductive ControlStatus : Type :=
| NotImplemented
| InProgress (progress : Percentage)
| Implemented (implementedAt : Date)
| NotApplicable (reason : jsstring)
| Failed (reason : jsstring) (detectedAt : Date).

Definition matchControlStatus {T} (status : ControlStatus)
           (onNotImplemented : T)
           (onInProgress : Percentage -> T)
           (onImplemented : Date -> T)
           (onNotApplicable : jsstring -> T)
           (onFailed : jsstring -> Date -> T) : T :=
  match status with
  | NotImplemented => onNotImplemented
  | InProgress progress => onInProgress progress
  | Implemented implementedAt => onImplemented implementedAt
  | NotApplicable reason => onNotApplicable reason
  | Failed reason detectedAt => onFailed reason detectedAt
  end.

Record Control : Type := mkControl {
  id : ControlId;
  frameworkId : FrameworkId;
  code : jsstring;
  title : jsstring;
  description : jsstring;
  status : ControlStatus;
  ownerId : UserId
}.

Record CreateControlInput : Type := mkCreateControlInput {
  in_id : jsstring;
  in_frameworkId : FrameworkId;
  in_code : jsstring;
  in_title : jsstring;
  in_description : jsstring;
  in_ownerId : UserId
}.

Definition createControl (input : CreateControlInput)
  : Result Control (list ValidationError) :=
  let errors : list ValidationError := [] in
  let idResult := controlId (in_id input) in
  let errors :=
    match idResult with
    | err error => errors ++ [error]
    | ok _ => errors
    end in
  let errors :=
    if blank (in_code input)
    then errors ++ [validationError (js "code")
                      (js "Control code is required") (js "REQUIRED")]
    else errors in
  let errors :=
    if blank (in_title input)
    then errors ++ [validationError (js "title")
                      (js "Control title is required") (js "REQUIRED")]
    else errors in
  if (0 <? List.length errors)%nat then err errors
  else
    match idResult with
    | ok value =>
        ok {| id := value;
              frameworkId := in_frameworkId input;
              code := in_code input;
              title := in_title input;
              description := in_description input;
              status := NotImplemented;
              ownerId := in_ownerId input |}
    | err _ => err errors  (* not reached: [errors] would be non-empty *)
    end.

(** [{ ...control, status: newStatus }] *)
Definition with_status (control : Control) (newStatus : ControlStatus)
  : Control :=
  {| id := id control;
     frameworkId := frameworkId control;
     code := code control;
     title := title control;
     description := description control;
     status := newStatus;
     ownerId := ownerId control |}.

Definition updateControlStatus (control : Control) (newStatus : ControlStatus)
  : Result Control ValidationError :=
  match status control, newStatus with
  | Failed _ _, Implemented _ =>
      err (validationError
             (js "status")
             (js "Cannot transition directly from Failed to Implemented")
             (js "INVALID_TRANSITION"))
  | _, _ => ok (with_status control newStatus)
  end.

End ControlModel.

(* ===================================================================== *)
(** * domain/framework.ts                                                 *)
(* ===================================================================== *)

Module FrameworkModel.

Inductive FrameworkType : Type := SOC2 | ISO27001 | HIPAA | PCI_DSS | GDPR.

Inductive FrameworkStatus : Type := Draft | Active | Deprecated.

Definition FrameworkStatus_eqb (a b : FrameworkStatus) : bool :=
  match a, b with
  | Draft, Draft | Active, Active | Deprecated, Deprecated => true
  | _, _ => false
  end.

Record Framework : Type := mkFramework {
  id : FrameworkId;
  type : FrameworkType;
  name : jsstring;
  version : jsstring;
  description : jsstring;
  status : FrameworkStatus;
  controlIds : list ControlId
}.

Record CreateFrameworkInput : Type := mkCreateFrameworkInput {
  in_id : jsstring;
  in_type : FrameworkType;
  in_name : jsstring;
  in_version : jsstring;
  in_description : jsstring
}.

(** [/^\d+\.\d+(\.\d+)?$/.test]: the pattern is deterministic, since a
    run of digits can only be followed by a dot or the end of input. *)
Fixpoint skipDigits (s : jsstring) : jsstring :=
  match s with
  | [] => []
  | c :: s' => if isDigit c then skipDigits s' else s
  end.

(** [\d+] at the head of [s]; the rest of the input when it matches. *)
Definition digits1 (s : jsstring) : option jsstring :=
  match s with
  | [] => None
  | c :: s' => if isDigit c then Some (skipDigits s') else None
  end.

(** [\.] at the head of [s]. *)
Definition dot (s : jsstring) : option jsstring :=
  match s with
  | c :: s' => if (c =? 0x2E)%N then Some s' else None
  | [] => None
  end.

Definition versionPattern_test (s : jsstring) : bool :=
  match digits1 s with
  | None => false
  | Some r1 =>
      match dot r1 with
      | None => false
      | Some r2 =>
          match digits1 r2 with
          | None => false
          | Some [] => true
          | Some r3 =>
              match dot r3 with
              | None => false
              | Some r4 =>
                  match digits1 r4 with
                  | Some [] => true
                  | _ => false
                  end
              end
          end
      end
  end.

Definition createFramework (input : CreateFrameworkInput)
  : Result Framework (list ValidationError) :=
  let errors : list ValidationError := [] in
  let idResult := ValueObjects.frameworkId (in_id input) in
  let errors :=
    match idResult with
    | err error => errors ++ [error]
    | ok _ => errors
    end in
  let errors :=
    if blank (in_name input)
    then errors ++ [validationError (js "name")
                      (js "Framework name is required") (js "REQUIRED")]
    else errors in
  let errors :=
    if negb (versionPattern_test (in_version input))
    then errors ++ [validationError (js "version")
                      (js "Version must be in semver format (e.g., 1.0 or 1.0.0)")
                      (js "INVALID_VERSION")]
    else errors in
  if (0 <? List.length errors)%nat then err errors
  else
    match idResult with
    | ok value =>
        ok {| id := value;
              type := in_type input;
              name := in_name input;
              version := in_version input;
              description := in_description input;
              status := Draft;
              controlIds := [] |}
    | err _ => err errors  (* not reached: [errors] would be non-empty *)
    end.

(** [{ ...framework, status: newStatus }] *)
Definition with_status (framework : Framework) (newStatus : FrameworkStatus)
  : Framework :=
  {| id := id framework;
     type := type framework;
     name := name framework;
     version := version framework;
     description := description framework;
     status := newStatus;
     controlIds := controlIds framework |}.

(** [{ ...framework, controlIds: ids }] *)
Definition with_controlIds (framework : Framework) (ids : list ControlId)
  : Framework :=
  {| id := id framework;
     type := type framework;
     name := name framework;
     version := version framework;
     description := description framework;
     status := status framework;
     controlIds := ids |}.

Definition updateFrameworkStatus (framework : Framework)
           (newStatus : FrameworkStatus)
  : Result Framework ValidationError :=
  if FrameworkStatus_eqb (status framework) Deprecated
     && FrameworkStatus_eqb newStatus Active
  then err (validationError
              (js "status")
              (js "Cannot reactivate a deprecated framework")
              (js "INVALID_TRANSITION"))
  else if FrameworkStatus_eqb newStatus Active
          && (List.length (controlIds framework) =? 0)%nat
  then err (validationError
              (js "status")
              (js "Cannot activate a framework without controls")
              (js "NO_CONTROLS"))
  else ok (with_status framework newStatus).

Definition addControlToFramework (framework : Framework)
           (controlId : ControlId) : Framework :=
  if includes (controlIds framework) controlId
  then framework
  else with_controlIds framework (controlIds framework ++ [controlId]).

End FrameworkModel.

(* ===================================================================== *)
(** * domain/evidence.ts                                                  *)
(* ===================================================================== *)

Module EvidenceModel.

Local Open Scope eff_scope.

Inductive FileType : Type := PDF | DOCX | XLSX | PNG | JPG.

Inductive CheckResult : Type :=
| Passed
| Failed (reason : jsstring)
| Skipped (reason : jsstring).

Inductive EvidenceType : Type :=
| Document (fileUrl : Url) (fileType : FileType)
| Screenshot (imageUrl : Url) (capturedAt : Date)
| AutomatedCheck (integrationId : IntegrationId) (checkName : jsstring)
                 (lastRunAt : Date) (result : CheckResult)
| ManualReview (reviewerId : UserId) (reviewedAt : Date) (notes : jsstring).

Inductive EvidenceStatus : Type := Valid | Expired | Pending | Rejected.

(** [expiresAt : Date | null] is an [option Date]. *)
Record Evidence : Type := mkEvidence {
  id : EvidenceId;
  controlId : ControlId;
  evidenceType : EvidenceType;
  collectedAt : Date;
  expiresAt : option Date;
  description : jsstring
}.

Record CreateEvidenceInput : Type := mkCreateEvidenceInput {
  in_id : jsstring;
  in_controlId : ControlId;
  in_evidenceType : EvidenceType;
  in_collectedAt : Date;
  in_expiresAt : option Date;
  in_description : jsstring
}.

Definition err_expiration : ValidationError :=
  validationError (js "expiresAt")
                  (js "Expiration date must be in the future")
                  (js "INVALID_EXPIRATION").

Definition err_collection : ValidationError :=
  validationError (js "collectedAt")
                  (js "Collection date cannot be in the future")
                  (js "INVALID_COLLECTION_DATE").

(** The clock is read once per [new Date()] that is evaluated: the
    first one only when [expiresAt] is not null (the [&&] is lazy), the
    second one always. *)
Definition createEvidence (input : CreateEvidenceInput)
  : Eff (Result Evidence (list ValidationError)) :=
  let errors : list ValidationError := [] in
  let idResult := evidenceId (in_id input) in
  let errors :=
    match idResult with
    | err error => errors ++ [error]
    | ok _ => errors
    end in
  expired <- match in_expiresAt input with
             | None => ret false
             | Some expiresAt => d <- newDate ;; ret (date_le expiresAt d)
             end ;;
  let errors := if expired then errors ++ [err_expiration] else errors in
  d <- newDate ;;
  let errors :=
    if date_gt (in_collectedAt input) d
    then errors ++ [err_collection]
    else errors in
  if (0 <? List.length errors)%nat then ret (err errors)
  else
    match idResult with
    | ok value =>
        ret (ok {| id := value;
                   controlId := in_controlId input;
                   evidenceType := in_evidenceType input;
                   collectedAt := in_collectedAt input;
                   expiresAt := in_expiresAt input;
                   description := in_description input |})
    | err _ => ret (err errors)  (* not reached *)
    end.

Definition getEvidenceStatus (evidence : Evidence) : Eff EvidenceStatus :=
  expired <- match expiresAt evidence with
             | None => ret false
             | Some e => d <- newDate ;; ret (date_lt e d)
             end ;;
  if expired then ret Expired
  else
    match evidenceType evidence with
    | AutomatedCheck _ _ _ (Failed _) => ret Rejected
    | AutomatedCheck _ _ _ (Skipped _) => ret Pending
    | _ => ret Valid
    end.

End EvidenceModel.

(* ===================================================================== *)
(** * domain/risk.ts                                                      *)
(* ===================================================================== *)

Module RiskModel.

Local Open Scope eff_scope.

Inductive RiskLevel : Type := Low | Medium | High | Critical.

(** The values are small integers, on which the arithmetic of numbers
    is exact: they are kept in [Z]. *)
Definition riskLevelValue (level : RiskLevel) : Z :=
  match level with
  | Low => 1
  | Medium => 2
  | High => 3
  | Critical => 4
  end.

Record RiskScore : Type := mkRiskScore {
  likelihood : RiskLevel;
  impact : RiskLevel;
  value : Z;
  label : jsstring
}.

Definition calculateRiskScore (likelihood impact : RiskLevel) : RiskScore :=
  let value := (riskLevelValue likelihood * riskLevelValue impact)%Z in
  let label :=
    if (value <=? 2)%Z then js "Low"
    else if (value <=? 6)%Z then js "Medium"
    else if (value <=? 12)%Z then js "High"
    else js "Critical" in
  {| likelihood := likelihood;
     impact := impact;
     value := value;
     label := label |}.

Inductive RiskCategory : Type :=
  Operational | Technical | Compliance | Financial.

Inductive RiskStatus : Type :=
| Identified (identifiedAt : Date)
| Assessed (assessedAt : Date) (assessorId : UserId)
| Mitigated (mitigatedAt : Date) (controlIds : list ControlId)
| Accepted (acceptedById : UserId) (reason : jsstring) (expiresAt : Date)
| Closed (closedAt : Date) (resolution : jsstring).

Record Risk : Type := mkRisk {
  id : RiskId;
  title : jsstring;
  description : jsstring;
  category : RiskCategory;
  inherentScore : RiskScore;
  residualScore : RiskScore;
  status : RiskStatus;
  ownerId : UserId
}.

Record CreateRiskInput : Type := mkCreateRiskInput {
  in_id : jsstring;
  in_title : jsstring;
  in_description : jsstring;
  in_category : RiskCategory;
  in_likelihood : RiskLevel;
  in_impact : RiskLevel;
  in_ownerId : UserId
}.

(** The clock is read only on the success path, for the initial
    [Identified] status. *)
Definition createRisk (input : CreateRiskInput)
  : Eff (Result Risk (list ValidationError)) :=
  let errors : list ValidationError := [] in
  let idResult := riskId (in_id input) in
  let errors :=
    match idResult with
    | err error => errors ++ [error]
    | ok _ => errors
    end in
  let errors :=
    if blank (in_title input)
    then errors ++ [validationError (js "title")
                      (js "Risk title is required") (js "REQUIRED")]
    else errors in
  if (0 <? List.length errors)%nat then ret (err errors)
  else
    let inherentScore :=
      calculateRiskScore (in_likelihood input) (in_impact input) in
    match idResult with
    | ok value =>
        d <- newDate ;;
        ret (ok {| id := value;
                   title := in_title input;
                   description := in_description input;
                   category := in_category input;
                   inherentScore := inherentScore;
                   residualScore := inherentScore;
                   status := Identified d;
                   ownerId := in_ownerId input |})
    | err _ => ret (err errors)  (* not reached *)
    end.

(** [{ ...risk, status: newStatus }] *)
Definition with_status (risk : Risk) (newStatus : RiskStatus) : Risk :=
  {| id := id risk;
     title := title risk;
     description := description risk;
     category := category risk;
     inherentScore := inherentScore risk;
     residualScore := residualScore risk;
     status := newStatus;
     ownerId := ownerId risk |}.

Definition err_closed : ValidationError :=
  validationError (js "status")
                  (js "Cannot transition from Closed status")
                  (js "INVALID_TRANSITION").

Definition err_acceptance : ValidationError :=
  validationError (js "expiresAt")
                  (js "Acceptance expiration date must be in the future")
                  (js "INVALID_EXPIRATION").

(** The clock is read only when the first rule lets the call through
    and the candidate status is [Accepted]. *)
Definition updateRiskStatus (risk : Risk) (newStatus : RiskStatus)
  : Eff (Result Risk ValidationError) :=
  match status risk with
  | Closed _ _ => ret (err err_closed)
  | _ =>
      expired <- match newStatus with
                 | Accepted _ _ expiresAt =>
                     d <- newDate ;; ret (date_le expiresAt d)
                 | _ => ret false
                 end ;;
      if expired then ret (err err_acceptance)
      else ret (ok (with_status risk newStatus))
  end.

(** [{ ...risk, residualScore: calculateRiskScore(likelihood, impact) }] *)
Definition updateResidualScore (risk : Risk) (likelihood impact : RiskLevel)
  : Risk :=
  {| id := id risk;
     title := title risk;
     description := description risk;
     category := category risk;
     inherentScore := inherentScore risk;
     residualScore := calculateRiskScore likelihood impact;
     status := status risk;
     ownerId := ownerId risk |}.

End RiskModel.

(* ===================================================================== *)
(** * Label renderers and pattern matches                                 *)
(* ===================================================================== *)

(** The remaining functions of domain/control.ts, domain/framework.ts,
    domain/evidence.ts and domain/risk.ts: the label renderers and the
    pattern-matching helpers they are written with.

    Two conversions of the language are taken as given: the text
    [toISOString] produces for a valid time value, and the text a number
    converts to.  [toISOString] throws a RangeError on an invalid date:
    a renderer returns [None] when that happens. *)

Module LabelModel.

Definition getFrameworkTypeLabel (type : FrameworkModel.FrameworkType)
  : jsstring :=
  match type with
  | FrameworkModel.SOC2 => js "SOC 2"
  | FrameworkModel.ISO27001 => js "ISO 27001"
  | FrameworkModel.HIPAA => js "HIPAA"
  | FrameworkModel.PCI_DSS => js "PCI DSS"
  | FrameworkModel.GDPR => js "GDPR"
  end.

Definition matchEvidenceType {T} (evidenceType : EvidenceModel.EvidenceType)
           (onDocument : Url -> EvidenceModel.FileType -> T)
           (onScreenshot : Url -> Date -> T)
           (onAutomatedCheck :
              IntegrationId -> jsstring -> Date -> EvidenceModel.CheckResult -> T)
           (onManualReview : UserId -> Date -> jsstring -> T) : T :=
  match evidenceType with
  | EvidenceModel.Document fileUrl fileType => onDocument fileUrl fileType
  | EvidenceModel.Screenshot imageUrl capturedAt =>
      onScreenshot imageUrl capturedAt
  | EvidenceModel.AutomatedCheck integrationId checkName lastRunAt result =>
      onAutomatedCheck integrationId checkName lastRunAt result
  | EvidenceModel.ManualReview reviewerId reviewedAt notes =>
      onManualReview reviewerId reviewedAt notes
  end.

Definition matchRiskStatus {T} (status : RiskModel.RiskStatus)
           (onIdentified : Date -> T)
           (onAssessed : Date -> UserId -> T)
           (onMitigated : Date -> list ControlId -> T)
           (onAccepted : UserId -> jsstring -> Date -> T)
           (onClosed : Date -> jsstring -> T) : T :=
  match status with
  | RiskModel.Identified identifiedAt => onIdentified identifiedAt
  | RiskModel.Assessed assessedAt assessorId => onAssessed assessedAt assessorId
  | RiskModel.Mitigated mitigatedAt controlIds =>
      onMitigated mitigatedAt controlIds
  | RiskModel.Accepted acceptedById reason expiresAt =>
      onAccepted acceptedById reason expiresAt
  | RiskModel.Closed closedAt resolution => onClosed closedAt resolution
  end.

(** The [type] tag of a check result and the text of a file type, as
    they are interpolated into a label. *)
Definition checkResultType (result : EvidenceModel.CheckResult) : jsstring :=
  match result with
  | EvidenceModel.Passed => js "Passed"
  | EvidenceModel.Failed _ => js "Failed"
  | EvidenceModel.Skipped _ => js "Skipped"
  end.

Definition fileTypeText (fileType : EvidenceModel.FileType) : jsstring :=
  match fileType with
  | EvidenceModel.PDF => js "PDF"
  | EvidenceModel.DOCX => js "DOCX"
  | EvidenceModel.XLSX => js "XLSX"
  | EvidenceModel.PNG => js "PNG"
  | EvidenceModel.JPG => js "JPG"
  end.

(** The text of an array length: its decimal digits. *)
Definition lengthToString (n : nat) : jsstring :=
  js (NilZero.string_of_uint (Nat.to_uint n)).

(** The Japanese words of the labels, as code units. *)
Definition jp_notImplemented : jsstring := [0x672A; 0x5B9F; 0x88C5]%N.
Definition jp_inProgress : jsstring := [0x5B9F; 0x88C5; 0x4E2D]%N.
Definition jp_implemented : jsstring := [0x5B9F; 0x88C5; 0x6E08; 0x307F]%N.
Definition jp_notApplicable : jsstring := [0x9069; 0x7528; 0x5916]%N.
Definition jp_failed : jsstring := [0x5931; 0x6557]%N.
Definition jp_document : jsstring :=
  [0x30C9; 0x30AD; 0x30E5; 0x30E1; 0x30F3; 0x30C8]%N.
Definition jp_screenshot : jsstring :=
  [0x30B9; 0x30AF; 0x30EA; 0x30FC; 0x30F3; 0x30B7; 0x30E7; 0x30C3; 0x30C8]%N.
Definition jp_automatedCheck : jsstring :=
  [0x81EA; 0x52D5; 0x30C1; 0x30A7; 0x30C3; 0x30AF]%N.
Definition jp_manualReview : jsstring :=
  [0x624B; 0x52D5; 0x30EC; 0x30D3; 0x30E5; 0x30FC]%N.
Definition jp_identified : jsstring := [0x7279; 0x5B9A; 0x6E08; 0x307F]%N.
Definition jp_assessed : jsstring := [0x8A55; 0x4FA1; 0x6E08; 0x307F]%N.
Definition jp_mitigated : jsstring := [0x8EFD; 0x6E1B; 0x6E08; 0x307F]%N.
Definition jp_controlsCount : jsstring := [0x4EF6; 0x306E; 0x7D71; 0x5236]%N.
Definition jp_accepted : jsstring := [0x53D7; 0x5BB9]%N.
Definition jp_deadline : jsstring := [0x671F; 0x9650]%N.
Definition jp_closed : jsstring := [0x30AF; 0x30ED; 0x30FC; 0x30BA]%N.

Section Builtins.

Variable isoString : Z -> jsstring.
Variable numberToString : number -> jsstring.

Definition toISOString (d : Date) : option jsstring :=
  match d with
  | DateOf t => Some (isoString t)
  | InvalidDate => None
  end.

Definition getControlStatusLabel (status : ControlModel.ControlStatus)
  : option jsstring :=
  ControlModel.matchControlStatus status
    (Some jp_notImplemented)
    (fun progress =>
       Some (jp_inProgress ++ js " (" ++ numberToString progress ++ js "%)"))
    (fun date =>
       match toISOString date with
       | Some iso => Some (jp_implemented ++ js " (" ++ iso ++ js ")")
       | None => None
       end)
    (fun reason => Some (jp_notApplicable ++ js ": " ++ reason))
    (fun reason _date => Some (jp_failed ++ js ": " ++ reason)).

Definition getEvidenceTypeLabel (evidenceType : EvidenceModel.EvidenceType)
  : option jsstring :=
  matchEvidenceType evidenceType
    (fun _url fileType =>
       Some (jp_document ++ js " (" ++ fileTypeText fileType ++ js ")"))
    (fun _url capturedAt =>
       match toISOString capturedAt with
       | Some iso => Some (jp_screenshot ++ js " (" ++ iso ++ js ")")
       | None => None
       end)
    (fun _id checkName _date result =>
       Some (jp_automatedCheck ++ js ": " ++ checkName ++ js " ("
               ++ checkResultType result ++ js ")"))
    (fun _id reviewedAt _notes =>
       match toISOString reviewedAt with
       | Some iso => Some (jp_manualReview ++ js " (" ++ iso ++ js ")")
       | None => None
       end).

Definition getRiskStatusLabel (status : RiskModel.RiskStatus)
  : option jsstring :=
  matchRiskStatus status
    (fun date =>
       match toISOString date with
       | Some iso => Some (jp_identified ++ js " (" ++ iso ++ js ")")
       | None => None
       end)
    (fun date _assessorId =>
       match toISOString date with
       | Some iso => Some (jp_assessed ++ js " (" ++ iso ++ js ")")
       | None => None
       end)
    (fun date controlIds =>
       Some (jp_mitigated ++ js " ("
               ++ lengthToString (List.length controlIds)
               ++ jp_controlsCount ++ js ")"))
    (fun _userId reason expiresAt =>
       match toISOString expiresAt with
       | Some iso =>
           Some (jp_accepted ++ js " (" ++ reason ++ js ", " ++ jp_deadline
                   ++ js ": " ++ iso ++ js ")")
       | None => None
       end)
    (fun date resolution => Some (jp_closed ++ js " (" ++ resolution ++ js ")")).

End Builtins.

End LabelModel.

(* ===================================================================== *)
(** * Vocabulary of the specification                                     *)
(* ===================================================================== *)

(** The predicates and reference functions the properties are phrased
  with.  They follow the wording of the specification, not the code. *)

Module SpecTerms.

(** A string that consists of whitespace only (vacuously so when it is
    empty). *)
Definition whitespaceOnly (s : jsstring) : bool := forallb isWhiteSpace s.

(** [0 <= v <= 100] on numbers. *)
Definition inRange_0_100 (v : number) : bool :=
  num_le num_0 v && num_le v num_100.

(** The number 50.5. *)
Definition num_50_5 : number := S754_finite false 7107243161944064 (-47).

Definition isFailed (s : ControlModel.ControlStatus) : bool :=
  match s with
  | ControlModel.Failed _ _ => true
  | _ => false
  end.

Definition isImplemented (s : ControlModel.ControlStatus) : bool :=
  match s with
  | ControlModel.Implemented _ => true
  | _ => false
  end.

Definition isClosed (s : RiskModel.RiskStatus) : bool :=
  match s with
  | RiskModel.Closed _ _ => true
  | _ => false
  end.

(** The expiry a candidate risk status carries, if it is [Accepted]. *)
Definition acceptedUntil (s : RiskModel.RiskStatus) : option Date :=
  match s with
  | RiskModel.Accepted _ _ expiresAt => Some expiresAt
  | _ => None
  end.

(** RiskLevel ordinals: Low=1 < Medium=2 < High=3 < Critical=4. *)
Definition ordinal (l : RiskModel.RiskLevel) : Z :=
  match l with
  | RiskModel.Low => 1
  | RiskModel.Medium => 2
  | RiskModel.High => 3
  | RiskModel.Critical => 4
  end.

(** The band of a score value: value<=2 Low, <=6 Medium, <=12 High,
    else Critical. *)
Definition band (value : Z) : RiskModel.RiskLevel :=
  if (value <=? 2)%Z then RiskModel.Low
  else if (value <=? 6)%Z then RiskModel.Medium
  else if (value <=? 12)%Z then RiskModel.High
  else RiskModel.Critical.

Definition levelName (l : RiskModel.RiskLevel) : jsstring :=
  match l with
  | RiskModel.Low => js "Low"
  | RiskModel.Medium => js "Medium"
  | RiskModel.High => js "High"
  | RiskModel.Critical => js "Critical"
  end.

Definition allLevels : list RiskModel.RiskLevel :=
  [RiskModel.Low; RiskModel.Medium; RiskModel.High; RiskModel.Critical].

(** Number of occurrences of an identifier in a list of identifiers. *)
Definition occurrences (x : jsstring) (l : list jsstring) : nat :=
  count_occ (list_eq_dec N.eq_dec) l x.

(** Orderings between a date and a clock reading, in milliseconds.  An
    invalid date stands in none of them. *)
Definition notAfter (d : Date) (t : Z) : Prop :=
  exists x, d = DateOf x /\ (x <= t)%Z.

Definition before (d : Date) (t : Z) : Prop :=
  exists x, d = DateOf x /\ (x < t)%Z.

Definition after (d : Date) (t : Z) : Prop :=
  exists x, d = DateOf x /\ (t < x)%Z.

(** The three field checks of the Evidence factory, against the clock
    reading [t] each of them is made at. *)
Definition idFails (input : EvidenceModel.CreateEvidenceInput) : bool :=
  whitespaceOnly (EvidenceModel.in_id input).

Definition expiryFails (input : EvidenceModel.CreateEvidenceInput) (t : Z)
  : bool :=
  match EvidenceModel.in_expiresAt input with
  | Some (DateOf x) => (x <=? t)%Z
  | _ => false
  end.

Definition collectionFails (input : EvidenceModel.CreateEvidenceInput) (t : Z)
  : bool :=
  match EvidenceModel.in_collectedAt input with
  | DateOf x => (t <? x)%Z
  | InvalidDate => false
  end.

(** The reading of the clock the collection date is checked against:
    the first one when there is no expiry to check, the second one
    otherwise. *)
Definition collectionCheckTime (input : EvidenceModel.CreateEvidenceInput)
           (clk : Clock) : Z :=
  match EvidenceModel.in_expiresAt input with
  | None => now clk
  | Some _ => now (tick clk)
  end.

(** Errors that carry a given code. *)
Definition withCode (c : jsstring) (errs : list ValidationError)
  : list ValidationError :=
  filter (fun e => str_eqb (code e) c) errs.

(** An evidence whose expiry lies strictly before [t]. *)
Definition expiredAt (e : EvidenceModel.Evidence) (t : Z) : Prop :=
  exists d, EvidenceModel.expiresAt e = Some d /\ before d t.

(** The error each failing check of the Evidence factory contributes,
    in the order the checks are made. *)
Definition expectedErrors (input : EvidenceModel.CreateEvidenceInput)
           (clk : Clock) : list ValidationError :=
  (if idFails input
   then [validationError (js "id") (js "EvidenceId cannot be empty")
                         (js "EMPTY_ID")]
   else [])
  ++ (if expiryFails input (now clk)
      then [validationError (js "expiresAt")
                            (js "Expiration date must be in the future")
                            (js "INVALID_EXPIRATION")]
      else [])
  ++ (if collectionFails input (collectionCheckTime input clk)
      then [validationError (js "collectedAt")
                            (js "Collection date cannot be in the future")
                            (js "INVALID_COLLECTION_DATE")]
      else []).

(** The evidence the factory builds from an input that passes. *)
Definition evidenceOf (input : EvidenceModel.CreateEvidenceInput)
  : EvidenceModel.Evidence :=
  EvidenceModel.mkEvidence
    (EvidenceModel.in_id input)
    (EvidenceModel.in_controlId input)
    (EvidenceModel.in_evidenceType input)
    (EvidenceModel.in_collectedAt input)
    (EvidenceModel.in_expiresAt input)
    (EvidenceModel.in_description input).

(** The frameworks the module can produce: those the factory returns,
    and those its two operations return on such a framework. *)
Inductive Built : FrameworkModel.Framework -> Prop :=
| Built_create input f :
    FrameworkModel.createFramework input = ok f -> Built f
| Built_addControl f x :
    Built f -> Built (FrameworkModel.addControlToFramework f x)
| Built_updateStatus f s f' :
    Built f -> FrameworkModel.updateFrameworkStatus f s = ok f' -> Built f'.

End SpecTerms.

Import SpecTerms.

(* ===================================================================== *)
(** * Sample data                                                         *)
(* ===================================================================== *)

(** Concrete entities for the scenarios the properties are tried on. *)

Module Samples.

Definition control (st : ControlModel.ControlStatus) : ControlModel.Control :=
  ControlModel.mkControl (js "ctl-1") (js "fw-1") (js "CC1.1")
                         (js "Access reviews") (js "Quarterly review")
                         st (js "user-1").

Definition frameworkInput : FrameworkModel.CreateFrameworkInput :=
  FrameworkModel.mkCreateFrameworkInput
    (js "fw-1") FrameworkModel.SOC2 (js "SOC 2") (js "2.0") (js "Type II").

Definition framework (st : FrameworkModel.FrameworkStatus)
           (ids : list ControlId) : FrameworkModel.Framework :=
  FrameworkModel.mkFramework (js "fw-1") FrameworkModel.SOC2 (js "SOC 2")
                             (js "2.0") (js "Type II") st ids.

Definition risk (st : RiskModel.RiskStatus) : RiskModel.Risk :=
  RiskModel.mkRisk (js "risk-1") (js "Data loss") (js "Backups untested")
                   RiskModel.Technical
                   (RiskModel.calculateRiskScore RiskModel.High
                                                 RiskModel.Critical)
                   (RiskModel.calculateRiskScore RiskModel.High
                                                 RiskModel.Critical)
                   st (js "user-1").

Definition riskInput : RiskModel.CreateRiskInput :=
  RiskModel.mkCreateRiskInput
    (js "risk-1") (js "Data loss") (js "Backups untested")
    RiskModel.Technical RiskModel.High RiskModel.Critical (js "user-1").

Definition passedCheck : EvidenceModel.EvidenceType :=
  EvidenceModel.AutomatedCheck (js "int-1") (js "mfa-enabled")
                               (DateOf 3000) EvidenceModel.Passed.

Definition evidence (ty : EvidenceModel.EvidenceType) (exp : option Date)
  : EvidenceModel.Evidence :=
  EvidenceModel.mkEvidence (js "ev-1") (js "ctl-1") ty (DateOf 3000) exp
                           (js "MFA report").

Definition evidenceInput (i : jsstring) (col : Date) (exp : option Date)
  : EvidenceModel.CreateEvidenceInput :=
  EvidenceModel.mkCreateEvidenceInput i (js "ctl-1") passedCheck col exp
                                      (js "MFA report").

End Samples.

(* ===================================================================== *)
(** * Vocabulary for the factories and the life cycles                    *)
(* ===================================================================== *)

Module FactoryTerms.

(** A non-empty run of ASCII digits. *)
Definition digitRun (s : jsstring) : Prop :=
  s <> [] /\ forallb isDigit s = true.

(** Two or three digit runs separated by single dots. *)
Definition isVersion (s : jsstring) : Prop :=
  exists a b,
    digitRun a /\ digitRun b
    /\ (s = a ++ js "." ++ b
        \/ exists c, digitRun c /\ s = a ++ js "." ++ b ++ js "." ++ c).

(** One error per failing check, in the order of the checks. *)
Definition controlErrors (input : ControlModel.CreateControlInput)
  : list ValidationError :=
  (if whitespaceOnly (ControlModel.in_id input)
   then [validationError (js "id") (js "ControlId cannot be empty")
                         (js "EMPTY_ID")]
   else [])
  ++ (if whitespaceOnly (ControlModel.in_code input)
      then [validationError (js "code") (js "Control code is required")
                            (js "REQUIRED")]
      else [])
  ++ (if whitespaceOnly (ControlModel.in_title input)
      then [validationError (js "title") (js "Control title is required")
                            (js "REQUIRED")]
      else []).

Definition controlOf (input : ControlModel.CreateControlInput)
  : ControlModel.Control :=
  ControlModel.mkControl
    (ControlModel.in_id input) (ControlModel.in_frameworkId input)
    (ControlModel.in_code input) (ControlModel.in_title input)
    (ControlModel.in_description input) ControlModel.NotImplemented
    (ControlModel.in_ownerId input).

Definition frameworkErrors (input : FrameworkModel.CreateFrameworkInput)
  : list ValidationError :=
  (if whitespaceOnly (FrameworkModel.in_id input)
   then [validationError (js "id") (js "FrameworkId cannot be empty")
                         (js "EMPTY_ID")]
   else [])
  ++ (if whitespaceOnly (FrameworkModel.in_name input)
      then [validationError (js "name") (js "Framework name is required")
                            (js "REQUIRED")]
      else [])
  ++ (if FrameworkModel.versionPattern_test (FrameworkModel.in_version input)
      then []
      else [validationError
              (js "version")
              (js "Version must be in semver format (e.g., 1.0 or 1.0.0)")
              (js "INVALID_VERSION")]).

Definition frameworkOf (input : FrameworkModel.CreateFrameworkInput)
  : FrameworkModel.Framework :=
  FrameworkModel.mkFramework
    (FrameworkModel.in_id input) (FrameworkModel.in_type input)
    (FrameworkModel.in_name input) (FrameworkModel.in_version input)
    (FrameworkModel.in_description input) FrameworkModel.Draft [].


(** A score whose value and label are those of its two levels. *)
Definition wellFormedScore (sc : RiskModel.RiskScore) : Prop :=
  RiskModel.value sc
  = (ordinal (RiskModel.likelihood sc) * ordinal (RiskModel.impact sc))%Z
  /\ RiskModel.label sc = levelName (band (RiskModel.value sc)).

(** The order of the levels. *)
Definition level_le (a b : RiskModel.RiskLevel) : Prop :=
  (ordinal a <= ordinal b)%Z.

End FactoryTerms.

Module Lifecycle.

(** One operation on a control, and any number of them. *)
Inductive ControlStep : ControlModel.Control -> ControlModel.Control -> Prop :=
| CStep_status c s c' :
    ControlModel.updateControlStatus c s = ok c' -> ControlStep c c'.

Inductive ControlEvolves
  : ControlModel.Control -> ControlModel.Control -> Prop :=
| CEvolves_refl c : ControlEvolves c c
| CEvolves_step c d e :
    ControlEvolves c d -> ControlStep d e -> ControlEvolves c e.

(** One operation on a framework, and any number of them. *)
Inductive FrameworkStep
  : FrameworkModel.Framework -> FrameworkModel.Framework -> Prop :=
| FStep_addControl f x :
    FrameworkStep f (FrameworkModel.addControlToFramework f x)
| FStep_status f s f' :
    FrameworkModel.updateFrameworkStatus f s = ok f' -> FrameworkStep f f'.

Inductive FrameworkEvolves
  : FrameworkModel.Framework -> FrameworkModel.Framework -> Prop :=
| FEvolves_refl f : FrameworkEvolves f f
| FEvolves_step f g h :
    FrameworkEvolves f g -> FrameworkStep g h -> FrameworkEvolves f h.

(** One operation on a risk, at whatever time it is made, and any number
    of them. *)
Inductive RiskStep : RiskModel.Risk -> RiskModel.Risk -> Prop :=
| RStep_status r s clk r' :
    run (RiskModel.updateRiskStatus r s) clk = ok r' -> RiskStep r r'
| RStep_residual r l i :
    RiskStep r (RiskModel.updateResidualScore r l i).

Inductive RiskEvolves : RiskModel.Risk -> RiskModel.Risk -> Prop :=
| REvolves_refl r : RiskEvolves r r
| REvolves_step r s t :
    RiskEvolves r s -> RiskStep s t -> RiskEvolves r t.

(** What no operation touches: every field of a control but its status,
    every field of a framework but its status and controls, every field
    of a risk but its status and residual score. *)
Definition controlFrame (c c' : ControlModel.Control) : Prop :=
  ControlModel.id c' = ControlModel.id c
  /\ ControlModel.frameworkId c' = ControlModel.frameworkId c
  /\ ControlModel.code c' = ControlModel.code c
  /\ ControlModel.title c' = ControlModel.title c
  /\ ControlModel.description c' = ControlModel.description c
  /\ ControlModel.ownerId c' = ControlModel.ownerId c.

Definition frameworkFrame (f f' : FrameworkModel.Framework) : Prop :=
  FrameworkModel.id f' = FrameworkModel.id f
  /\ FrameworkModel.type f' = FrameworkModel.type f
  /\ FrameworkModel.name f' = FrameworkModel.name f
  /\ FrameworkModel.version f' = FrameworkModel.version f
  /\ FrameworkModel.description f' = FrameworkModel.description f.

Definition riskFrame (r r' : RiskModel.Risk) : Prop :=
  RiskModel.id r' = RiskModel.id r
  /\ RiskModel.title r' = RiskModel.title r
  /\ RiskModel.description r' = RiskModel.description r
  /\ RiskModel.category r' = RiskModel.category r
  /\ RiskModel.ownerId r' = RiskModel.ownerId r
  /\ RiskModel.inherentScore r' = RiskModel.inherentScore r.

(** An active framework has at least one control. *)
Definition activeHasControls (f : FrameworkModel.Framework) : Prop :=
  FrameworkModel.status f = FrameworkModel.Active ->
  FrameworkModel.controlIds f <> [].

End Lifecycle.

Module LabelTerms.

(** The variant of a status or of an evidence type, as the position of
    the handler the pattern match calls. *)
Definition controlVariant (s : ControlModel.ControlStatus) : nat :=
  ControlModel.matchControlStatus
    s 0%nat (fun _ => 1%nat) (fun _ => 2%nat) (fun _ => 3%nat)
    (fun _ _ => 4%nat).

Definition evidenceVariant (ty : EvidenceModel.EvidenceType) : nat :=
  LabelModel.matchEvidenceType
    ty (fun _ _ => 0%nat) (fun _ _ => 1%nat) (fun _ _ _ _ => 2%nat)
    (fun _ _ _ => 3%nat).

Definition riskVariant (s : RiskModel.RiskStatus) : nat :=
  LabelModel.matchRiskStatus
    s (fun _ => 0%nat) (fun _ _ => 1%nat) (fun _ _ => 2%nat)
    (fun _ _ _ => 3%nat) (fun _ _ => 4%nat).

(** The dates a label prints with [toISOString]. *)
Definition controlLabelDate (s : ControlModel.ControlStatus) : option Date :=
  match s with
  | ControlModel.Implemented d => Some d
  | _ => None
  end.

Definition evidenceLabelDate (ty : EvidenceModel.EvidenceType)
  : option Date :=
  match ty with
  | EvidenceModel.Screenshot _ d => Some d
  | EvidenceModel.ManualReview _ d _ => Some d
  | _ => None
  end.

Definition riskLabelDate (s : RiskModel.RiskStatus) : option Date :=
  match s with
  | RiskModel.Identified d => Some d
  | RiskModel.Assessed d _ => Some d
  | RiskModel.Accepted _ _ d => Some d
  | _ => None
  end.

End LabelTerms.

(* ===================================================================== *)
(** * Properties: language-level lemmas                                   *)
(* ===================================================================== *)

Module JSFacts.

Lemma str_eqb_eq (a b : jsstring) : str_eqb a b = true <-> a = b.
Proof.
  revert b; induction a as [|x a IH]; intros [|y b]; simpl;
    try (split; [discriminate | congruence]); try tauto.
  rewrite andb_true_iff, N.eqb_eq, IH.
  split; [intros [-> ->]; reflexivity | intros H; inversion H; auto].
Qed.

Lemma includes_In (l : list jsstring) (x : jsstring) :
  includes l x = true <-> In x l.
Proof.
  induction l as [|y l IH]; simpl.
  - split; [discriminate | tauto].
  - rewrite orb_true_iff, str_eqb_eq, IH. tauto.
Qed.

Lemma includes_false (l : list jsstring) (x : jsstring) :
  includes l x = false <-> ~ In x l.
Proof.
  rewrite <- includes_In. destruct (includes l x); split; congruence.
Qed.

Lemma trimStart_nil (s : jsstring) :
  trimStart s = [] <-> forallb isWhiteSpace s = true.
Proof.
  induction s as [|c s IH]; simpl.
  - tauto.
  - destruct (isWhiteSpace c); simpl; [exact IH |].
    split; discriminate.
Qed.

(** What [trimStart] leaves does not start with whitespace. *)
Lemma trimStart_head (s : jsstring) :
  match trimStart s with
  | [] => True
  | c :: _ => isWhiteSpace c = false
  end.
Proof.
  induction s as [|c s IH]; simpl; [exact I |].
  destruct (isWhiteSpace c) eqn:E; [exact IH | exact E].
Qed.

Lemma forallb_rev {A} (p : A -> bool) (l : list A) :
  forallb p (rev l) = forallb p l.
Proof.
  induction l as [|a l IH]; simpl; [reflexivity |].
  rewrite forallb_app, IH. simpl. rewrite andb_true_r. apply andb_comm.
Qed.

Lemma trim_nil (s : jsstring) :
  trim s = [] <-> forallb isWhiteSpace s = true.
Proof.
  unfold trim, trimEnd.
  rewrite <- trimStart_nil.
  split.
  - intros H.
    apply (f_equal (@rev _)) in H. rewrite rev_involutive in H. simpl in H.
    apply trimStart_nil in H. rewrite forallb_rev in H.
    pose proof (trimStart_head s) as Hh.
    destruct (trimStart s) as [|c r]; [reflexivity |].
    simpl in H. rewrite Hh in H. discriminate.
  - intros ->. reflexivity.
Qed.

Lemma blank_whitespaceOnly (s : jsstring) :
  blank s = whitespaceOnly s.
Proof.
  unfold blank, whitespaceOnly.
  destruct s as [|c s]; [reflexivity |].
  cbn [truthy negb orb].
  destruct (forallb isWhiteSpace (c :: s)) eqn:E.
  - apply trim_nil in E. rewrite E. reflexivity.
  - destruct (trim (c :: s)) eqn:T; [| reflexivity].
    apply trim_nil in T. congruence.
Qed.

(** Comparing the other way round flips the outcome. *)
Lemma SFcompare_swap (x y : number) :
  SFcompare y x = option_map CompOpp (SFcompare x y).
Proof.
  destruct x as [sx|sx| |sx mx ex], y as [sy|sy| |sy my ey]; simpl;
    try reflexivity;
    try (destruct sx; reflexivity);
    try (destruct sy; reflexivity);
    try (destruct sx, sy; reflexivity).
  destruct sx, sy; simpl; try reflexivity;
    rewrite (Z.compare_antisym ex ey);
    destruct (ex ?= ey)%Z; simpl; try reflexivity;
    rewrite (Pos.compare_cont_antisym mx my Eq); simpl;
    try rewrite CompOpp_involutive; reflexivity.
Qed.

(** Away from NaN, [not (x < y)] is [y <= x]. *)
Lemma num_lt_false_le (x y : number) :
  isNaN x = false -> isNaN y = false ->
  num_lt x y = negb (num_le y x).
Proof.
  unfold num_lt, num_le, SFltb, SFleb. intros Hx Hy.
  rewrite (SFcompare_swap x y).
  destruct (SFcompare x y) as [[ | | ]|] eqn:E; simpl; try reflexivity.
  destruct x, y; simpl in *; try discriminate;
    repeat match goal with s : bool |- _ => destruct s end; discriminate.
Qed.

Lemma date_le_notAfter (d : Date) (t : Z) :
  date_le d (DateOf t) = true <-> notAfter d t.
Proof.
  unfold notAfter. destruct d as [x|]; simpl.
  - rewrite Z.leb_le. split.
    + intros H. exists x. auto.
    + intros (y & Hy & Hle). inversion Hy. subst. exact Hle.
  - split; [discriminate | intros (y & Hy & _); discriminate].
Qed.

Lemma date_lt_before (d : Date) (t : Z) :
  date_lt d (DateOf t) = true <-> before d t.
Proof.
  unfold before. destruct d as [x|]; simpl.
  - rewrite Z.ltb_lt. split.
    + intros H. exists x. auto.
    + intros (y & Hy & Hlt). inversion Hy. subst. exact Hlt.
  - split; [discriminate | intros (y & Hy & _); discriminate].
Qed.

Lemma date_gt_after (d : Date) (t : Z) :
  date_gt d (DateOf t) = true <-> after d t.
Proof.
  unfold after, date_gt. destruct d as [x|]; simpl.
  - rewrite Z.ltb_lt. split.
    + intros H. exists x. auto.
    + intros (y & Hy & Hlt). inversion Hy. subst. exact Hlt.
  - split; [discriminate | intros (y & Hy & _); discriminate].
Qed.

(** [trim] and the version pattern on a few strings. *)
Example trim_example : trim (js "  a b  ") = js "a b".
Proof. reflexivity. Qed.

Example trim_blank_example : trim [0x20; 0x09; 0x3000; 0x0A]%N = [].
Proof. reflexivity. Qed.

Example versionPattern_example :
  List.map FrameworkModel.versionPattern_test
           [js "1.0"; js "1.0.0"; js "10.20.30"; js "1"; js "1.0.0.0";
            js "1."; js ".1"; js "1..0"; js "v1.0"; js "1.0 "; js ""]
  = [true; true; true; false; false; false; false; false; false; false;
     false].
Proof. reflexivity. Qed.

End JSFacts.

(* ===================================================================== *)
(** * Properties: Control                                                 *)
(* ===================================================================== *)

Module ControlFacts.

Import ControlModel.

(** The one error [updateControlStatus] can return. *)
Lemma updateControlStatus_error (c : Control) (s : ControlStatus)
      (e : ValidationError) :
  updateControlStatus c s = err e ->
  e = validationError
        (js "status")
        (js "Cannot transition directly from Failed to Implemented")
        (js "INVALID_TRANSITION")
  /\ isFailed (status c) = true /\ isImplemented s = true.
Proof.
  unfold updateControlStatus.
  destruct (status c), s; simpl; intros H; try discriminate;
    inversion H; auto.
Qed.

(** C1. [updateControlStatus c s] is an error exactly when [c] is
    [Failed] and [s] is [Implemented]; the error then has code
    INVALID_TRANSITION and the message "Cannot transition directly from
    Failed to Implemented", and the control passed in still has its
    [Failed] status (no control is returned, and [c] is a value).  In
    every other case, Failed to Failed and Failed to NotApplicable
    included, the result is [ok] of a control whose status is [s] and
    whose other fields are those of [c]. *)
Theorem updateControlStatus_spec (c : Control) (s : ControlStatus) :
  ((exists e, updateControlStatus c s = err e)
     <-> (isFailed (status c) = true /\ isImplemented s = true))
  /\ (forall e, updateControlStatus c s = err e ->
        ResultCore.code e = js "INVALID_TRANSITION"
        /\ message e
           = js "Cannot transition directly from Failed to Implemented"
        /\ isFailed (status c) = true)
  /\ (~ (isFailed (status c) = true /\ isImplemented s = true) ->
      exists c', updateControlStatus c s = ok c'
        /\ status c' = s
        /\ id c' = id c
        /\ frameworkId c' = frameworkId c
        /\ ControlModel.code c' = ControlModel.code c
        /\ title c' = title c
        /\ description c' = description c
        /\ ownerId c' = ownerId c).
Proof.
  split; [split |split].
  - intros [e He]. apply updateControlStatus_error in He. tauto.
  - intros [Hf Hi]. unfold updateControlStatus.
    destruct (status c); try discriminate.
    destruct s; try discriminate. eexists; reflexivity.
  - intros e He. apply updateControlStatus_error in He.
    destruct He as (-> & Hf & _). auto.
  - intros Hn. exists (with_status c s).
    split; [| simpl; repeat split; reflexivity].
    unfold updateControlStatus.
    destruct (status c) eqn:Ec; try reflexivity.
    destruct s; try reflexivity.
    exfalso. apply Hn. simpl. auto.
Qed.

End ControlFacts.

(* ===================================================================== *)
(** * Properties: value objects                                           *)
(* ===================================================================== *)

Module ValueObjectsFacts.

Import JSFacts.

(** [createId] rejects exactly the strings that are empty or made of
    whitespace only, and returns any other string as it is. *)
Lemma createId_spec (value typeName : jsstring) :
  createId value typeName =
  if whitespaceOnly value
  then err (validationError (js "id") (typeName ++ js " cannot be empty")
                            (js "EMPTY_ID"))
  else ok value.
Proof.
  unfold createId. fold (blank value).
  rewrite blank_whitespaceOnly. reflexivity.
Qed.

Lemma createId_cases (value typeName : jsstring) :
  ((value = [] \/ whitespaceOnly value = true) ->
     exists e, createId value typeName = err e /\ code e = js "EMPTY_ID")
  /\ (value <> [] -> whitespaceOnly value = false ->
      createId value typeName = ok value)
  /\ (forall v, createId value typeName = ok v ->
        v = value /\ v <> [] /\ whitespaceOnly v = false).
Proof.
  rewrite createId_spec. split; [| split].
  - intros [-> | H].
    + eexists; split; reflexivity.
    + rewrite H. eexists; split; reflexivity.
  - intros _ ->. reflexivity.
  - intros v. destruct (whitespaceOnly value) eqn:E; [discriminate |].
    intros H0; inversion H0; subst. split; [reflexivity | split; [| exact E]].
    intros ->. discriminate.
Qed.

(** C7. Each of the six identifier constructors fails with code EMPTY_ID
    on a string that is empty or whitespace-only, and succeeds on every
    other string, returning exactly the string it was given (nothing is
    trimmed), so that an identifier is never empty or whitespace-only
    once constructed. *)
Theorem identifier_constructors_spec :
  Forall
    (fun mk : jsstring -> Result jsstring ValidationError =>
       forall s : jsstring,
         ((s = [] \/ whitespaceOnly s = true) ->
            exists e, mk s = err e /\ code e = js "EMPTY_ID")
         /\ (s <> [] -> whitespaceOnly s = false -> mk s = ok s)
         /\ (forall v, mk s = ok v ->
               v = s /\ v <> [] /\ whitespaceOnly v = false))
    [frameworkId; controlId; evidenceId; riskId; userId; integrationId].
Proof.
  repeat (apply Forall_cons; [intros s; apply createId_cases |]).
  apply Forall_nil.
Qed.

(** The constructors at work on ["ctl-1"], on a string of blanks (a space,
    a tab and an ideographic space), and on a string with blanks around a
    letter. *)
Lemma identifier_constructors_witness :
  controlId (js "ctl-1") = ok (js "ctl-1")
  /\ (exists e, riskId [0x20; 0x09; 0x3000]%N = err e
                /\ code e = js "EMPTY_ID")
  /\ userId [0x20; 0x61; 0x20]%N = ok [0x20; 0x61; 0x20]%N.
Proof.
  pose proof identifier_constructors_spec as H.
  apply Forall_inv_tail in H.
  pose proof (Forall_inv H) as Hcontrol.
  do 2 apply Forall_inv_tail in H.
  pose proof (Forall_inv H) as Hrisk.
  apply Forall_inv_tail in H.
  pose proof (Forall_inv H) as Huser.
  split; [| split].
  - apply (Hcontrol (js "ctl-1")); [discriminate | reflexivity].
  - apply (Hrisk [0x20; 0x09; 0x3000]%N). right. reflexivity.
  - apply (Huser [0x20; 0x61; 0x20]%N); [discriminate | reflexivity].
Defined.

(** The range test of [percentage], away from NaN. *)
Lemma percentage_range (v : number) :
  isNaN v = false ->
  num_lt v num_0 || num_gt v num_100 = negb (inRange_0_100 v).
Proof.
  intros Hv. unfold inRange_0_100, num_gt.
  change (SFltb num_100 v) with (num_lt num_100 v).
  rewrite (num_lt_false_le v num_0 Hv eq_refl).
  rewrite (num_lt_false_le num_100 v eq_refl Hv).
  rewrite negb_andb. reflexivity.
Qed.

(** C8, as the code has it.  For every number [v] other than NaN,
    [percentage v] succeeds if and only if [0 <= v <= 100], and fails
    with code INVALID_PERCENTAGE outside that range; a percentage that
    was constructed wraps exactly the number given, which lies in
    [0, 100] (it need not be an integer), and constructing a percentage
    again from that number yields the same result. *)
Theorem percentage_spec (v : number) :
  isNaN v = false ->
  ((exists p, percentage v = ok p) <-> inRange_0_100 v = true)
  /\ (inRange_0_100 v = false ->
      exists e, percentage v = err e /\ code e = js "INVALID_PERCENTAGE")
  /\ (forall p, percentage v = ok p ->
        p = v /\ inRange_0_100 p = true /\ percentage p = ok p).
Proof.
  intros Hv. unfold percentage. rewrite (percentage_range v Hv).
  destruct (inRange_0_100 v) eqn:E; simpl.
  - split; [split; [reflexivity | eexists; reflexivity] |].
    split; [discriminate |].
    intros p Hp. inversion Hp; subst.
    rewrite (percentage_range p Hv), E. auto.
  - split; [split; [intros [p Hp]; discriminate | discriminate] |].
    split; [intros _; eexists; split; reflexivity |].
    intros p Hp. discriminate.
Qed.

(** [percentage] on 100, the upper end of the range. *)
Lemma percentage_spec_witness :
  isNaN num_100 = false /\ percentage num_100 = ok num_100.
Proof.
  split; [reflexivity |].
  destruct (percentage_spec num_100 eq_refl) as (_ & _ & H).
  destruct (proj2 (proj1 (percentage_spec num_100 eq_refl)) eq_refl)
    as [p Hp].
  destruct (H p Hp) as (<- & _ & Hpp). exact Hpp.
Defined.

(** The claim C8 as the specification words it fails at 50.5: it is a
    binary64 number, [percentage] accepts it and wraps it unchanged, and
    it is not an integer. *)
Lemma percentage_accepts_fraction :
  is_binary64 num_50_5 = true
  /\ percentage num_50_5 = ok num_50_5
  /\ isInteger num_50_5 = false.
Proof. repeat split. Qed.

(** NaN passes both comparisons of the range test. *)
Lemma percentage_nan :
  percentage S754_nan = ok S754_nan /\ inRange_0_100 S754_nan = false.
Proof. split; reflexivity. Qed.

End ValueObjectsFacts.

(* ===================================================================== *)
(** * Properties: Framework                                               *)
(* ===================================================================== *)

Module FrameworkFacts.

Import JSFacts.
Import FrameworkModel.

Lemma FrameworkStatus_eqb_eq (a b : FrameworkStatus) :
  FrameworkStatus_eqb a b = true <-> a = b.
Proof. destruct a, b; simpl; split; congruence. Qed.

Lemma length_zero_nil {A} (l : list A) :
  (List.length l =? 0)%nat = true <-> l = [].
Proof. destruct l; simpl; split; congruence. Qed.

(** A framework that comes out of the factory is a draft without
    controls. *)
Lemma createFramework_initial (input : CreateFrameworkInput) (f : Framework) :
  createFramework input = ok f ->
  status f = Draft /\ controlIds f = [] /\ id f = in_id input.
Proof.
  unfold createFramework.
  destruct (if (0 <? _)%nat then _ else _) eqn:E; [| discriminate].
  intros H; inversion H; subst; clear H.
  destruct (0 <? _)%nat; [discriminate |].
  unfold ValueObjects.frameworkId in E.
  rewrite ValueObjectsFacts.createId_spec in E.
  destruct (whitespaceOnly (in_id input)); [discriminate |].
  inversion E. auto.
Qed.

(** The factory does succeed: on an identifier and a name that are not
    blank and a version of the form digits.digits or
    digits.digits.digits. *)
Lemma createFramework_succeeds (input : CreateFrameworkInput) :
  whitespaceOnly (in_id input) = false ->
  whitespaceOnly (in_name input) = false ->
  versionPattern_test (in_version input) = true ->
  exists f, createFramework input = ok f.
Proof.
  intros Hid Hname Hver. unfold createFramework, ValueObjects.frameworkId.
  rewrite ValueObjectsFacts.createId_spec, Hid, blank_whitespaceOnly, Hname, Hver.
  simpl. eexists; reflexivity.
Qed.

Lemma addControlToFramework_present (f : Framework) (x : ControlId) :
  In x (controlIds f) -> addControlToFramework f x = f.
Proof.
  intros H. unfold addControlToFramework.
  apply includes_In in H. rewrite H. reflexivity.
Qed.

Lemma addControlToFramework_absent (f : Framework) (x : ControlId) :
  ~ In x (controlIds f) ->
  addControlToFramework f x = with_controlIds f (controlIds f ++ [x]).
Proof.
  intros H. unfold addControlToFramework.
  apply includes_false in H. rewrite H. reflexivity.
Qed.

Lemma addControlToFramework_In (f : Framework) (x : ControlId) :
  In x (controlIds (addControlToFramework f x)).
Proof.
  destruct (in_dec (list_eq_dec N.eq_dec) x (controlIds f)) as [H | H].
  - rewrite addControlToFramework_present; assumption.
  - rewrite addControlToFramework_absent by assumption. simpl.
    apply in_or_app. right. left. reflexivity.
Qed.

(** Duplicate suppression: the list of controls stays free of
    duplicates. *)
Lemma addControlToFramework_NoDup (f : Framework) (x : ControlId) :
  NoDup (controlIds f) -> NoDup (controlIds (addControlToFramework f x)).
Proof.
  intros Hnd.
  destruct (in_dec (list_eq_dec N.eq_dec) x (controlIds f)) as [H | H].
  - rewrite addControlToFramework_present; assumption.
  - rewrite addControlToFramework_absent by assumption. simpl.
    apply NoDup_app; [exact Hnd | repeat constructor; intros [] |].
    intros a Ha [<- | []]. exact (H Ha).
Qed.

Lemma updateFrameworkStatus_controlIds (f f' : Framework)
      (s : FrameworkStatus) :
  updateFrameworkStatus f s = ok f' -> controlIds f' = controlIds f.
Proof.
  unfold updateFrameworkStatus.
  destruct (_ && _); [discriminate |].
  destruct (_ && _); [discriminate |].
  intros H; inversion H; reflexivity.
Qed.

(** Every framework the module produces has a duplicate-free list of
    controls: the list is an ordered set. *)
Lemma Built_NoDup (f : Framework) : Built f -> NoDup (controlIds f).
Proof.
  induction 1 as [input f Hc | f x _ IH | f s f' _ IH Hu].
  - apply createFramework_initial in Hc.
    destruct Hc as (_ & -> & _). constructor.
  - apply addControlToFramework_NoDup. exact IH.
  - rewrite (updateFrameworkStatus_controlIds _ _ Hu). exact IH.
Qed.

(** Adding [x] twice leaves as many occurrences of [x] as there were,
    and one if there was none. *)
Lemma addControlToFramework_twice_occurrences (f : Framework) (x : ControlId) :
  occurrences x
    (controlIds (addControlToFramework (addControlToFramework f x) x))
  = Nat.max 1 (occurrences x (controlIds f)).
Proof.
  rewrite (addControlToFramework_present (addControlToFramework f x) x)
    by apply addControlToFramework_In.
  unfold occurrences.
  destruct (in_dec (list_eq_dec N.eq_dec) x (controlIds f)) as [H | H].
  - rewrite addControlToFramework_present by assumption.
    apply (count_occ_In (list_eq_dec N.eq_dec)) in H. lia.
  - rewrite addControlToFramework_absent by assumption. simpl.
    rewrite count_occ_app.
    apply (count_occ_not_In (list_eq_dec N.eq_dec)) in H.
    unfold ControlId, jsstring, code_unit in *. rewrite H.
    simpl. destruct (list_eq_dec N.eq_dec x x); [reflexivity | congruence].
Qed.

(** C5. [updateFrameworkStatus f s] is the error INVALID_TRANSITION
    when [f] is Deprecated and [s] is Active (the rule checked first);
    otherwise it is the error NO_CONTROLS when [s] is Active and [f] has
    no control; in every other case it is [ok] of [f] with its status
    replaced by [s].  In particular, where the first rule does not
    apply, activating a framework without controls fails with
    NO_CONTROLS and succeeds once a control has been added; this is so
    for every framework the factory returns. *)
Theorem updateFrameworkStatus_spec (f : Framework) (s : FrameworkStatus) :
  (status f = Deprecated /\ s = Active ->
     exists e, updateFrameworkStatus f s = err e
               /\ code e = js "INVALID_TRANSITION")
  /\ (~ (status f = Deprecated /\ s = Active) ->
      s = Active /\ controlIds f = [] ->
      exists e, updateFrameworkStatus f s = err e
                /\ code e = js "NO_CONTROLS")
  /\ (~ (status f = Deprecated /\ s = Active) ->
      ~ (s = Active /\ controlIds f = []) ->
      exists f', updateFrameworkStatus f s = ok f'
        /\ status f' = s
        /\ id f' = id f /\ type f' = type f /\ name f' = name f
        /\ version f' = version f /\ description f' = description f
        /\ controlIds f' = controlIds f)
  /\ (status f <> Deprecated -> controlIds f = [] ->
      (exists e, updateFrameworkStatus f Active = err e
                 /\ code e = js "NO_CONTROLS")
      /\ forall x, exists f',
           updateFrameworkStatus (addControlToFramework f x) Active = ok f'
           /\ status f' = Active /\ controlIds f' = [x])
  /\ (forall input, createFramework input = ok f ->
      (exists e, updateFrameworkStatus f Active = err e
                 /\ code e = js "NO_CONTROLS")
      /\ forall x, exists f',
           updateFrameworkStatus (addControlToFramework f x) Active = ok f'
           /\ status f' = Active /\ controlIds f' = [x]).
Proof.
  assert (Hpart : status f <> Deprecated -> controlIds f = [] ->
      (exists e, updateFrameworkStatus f Active = err e
                 /\ code e = js "NO_CONTROLS")
      /\ forall x, exists f',
           updateFrameworkStatus (addControlToFramework f x) Active = ok f'
           /\ status f' = Active /\ controlIds f' = [x]).
  { intros Hs Hc. split.
    - unfold updateFrameworkStatus. rewrite Hc.
      destruct (status f); try congruence; simpl;
        eexists; split; reflexivity.
    - intros x. rewrite addControlToFramework_absent by (rewrite Hc; intros []).
      unfold updateFrameworkStatus. rewrite Hc. simpl.
      destruct (status f); try congruence; simpl;
        eexists; repeat split; reflexivity. }
  split; [| split; [| split; [| split]]].
  - intros [Hs ->]. unfold updateFrameworkStatus. rewrite Hs. simpl.
    eexists; split; reflexivity.
  - intros Hn [-> Hc]. unfold updateFrameworkStatus. rewrite Hc.
    destruct (status f) eqn:Es; simpl;
      try (eexists; split; reflexivity).
    exfalso; apply Hn; auto.
  - intros Hn1 Hn2. exists (with_status f s).
    split; [| simpl; repeat split; reflexivity].
    unfold updateFrameworkStatus.
    destruct (FrameworkStatus_eqb (status f) Deprecated
              && FrameworkStatus_eqb s Active) eqn:E1.
    { apply andb_true_iff in E1.
      rewrite !FrameworkStatus_eqb_eq in E1. tauto. }
    destruct (FrameworkStatus_eqb s Active
              && (List.length (controlIds f) =? 0)%nat) eqn:E2.
    { apply andb_true_iff in E2.
      rewrite FrameworkStatus_eqb_eq, length_zero_nil in E2. tauto. }
    reflexivity.
  - exact Hpart.
  - intros input Hin. apply createFramework_initial in Hin.
    destruct Hin as (Hs & Hc & _).
    apply Hpart; [rewrite Hs; discriminate | exact Hc].
Qed.

(** C6. [addControlToFramework] is a total function (it returns a
    framework, never an error).  If [x] is already among the controls
    the framework comes back unchanged; otherwise [x] is appended after
    the controls already there, which keep their order, and nothing else
    changes.  It is idempotent, and on a framework whose controls are
    free of duplicates, as the data model has it and as every framework
    the module produces is, adding [x] twice leaves exactly one
    occurrence of [x] (in general, as many as there were, and one if
    there was none). *)
Theorem addControlToFramework_spec (f : Framework) (x : ControlId) :
  (In x (controlIds f) -> addControlToFramework f x = f)
  /\ (~ In x (controlIds f) ->
      controlIds (addControlToFramework f x) = controlIds f ++ [x]
      /\ status (addControlToFramework f x) = status f
      /\ id (addControlToFramework f x) = id f
      /\ type (addControlToFramework f x) = type f
      /\ name (addControlToFramework f x) = name f
      /\ version (addControlToFramework f x) = version f
      /\ description (addControlToFramework f x) = description f)
  /\ addControlToFramework (addControlToFramework f x) x
     = addControlToFramework f x
  /\ (exists rest,
        controlIds (addControlToFramework f x) = controlIds f ++ rest)
  /\ occurrences x
       (controlIds (addControlToFramework (addControlToFramework f x) x))
     = Nat.max 1 (occurrences x (controlIds f))
  /\ (NoDup (controlIds f) ->
      NoDup (controlIds (addControlToFramework f x))
      /\ occurrences x
           (controlIds (addControlToFramework (addControlToFramework f x) x))
         = 1%nat)
  /\ (Built f ->
      occurrences x
        (controlIds (addControlToFramework (addControlToFramework f x) x))
      = 1%nat).
Proof.
  assert (Hone : NoDup (controlIds f) ->
      occurrences x
        (controlIds (addControlToFramework (addControlToFramework f x) x))
      = 1%nat).
  { intros Hnd. rewrite addControlToFramework_twice_occurrences.
    pose proof (proj1 (NoDup_count_occ (list_eq_dec N.eq_dec) _) Hnd x).
    unfold occurrences. lia. }
  split; [| split; [| split; [| split; [| split; [| split]]]]].
  - apply addControlToFramework_present.
  - intros H. rewrite addControlToFramework_absent by assumption.
    simpl. repeat split; reflexivity.
  - apply addControlToFramework_present, addControlToFramework_In.
  - destruct (in_dec (list_eq_dec N.eq_dec) x (controlIds f)) as [H | H].
    + exists []. rewrite addControlToFramework_present by assumption.
      symmetry; apply app_nil_r.
    + exists [x]. rewrite addControlToFramework_absent by assumption.
      reflexivity.
  - apply addControlToFramework_twice_occurrences.
  - intros Hnd. split; [apply addControlToFramework_NoDup; exact Hnd |].
    exact (Hone Hnd).
  - intros Hb. exact (Hone (Built_NoDup Hb)).
Qed.

End FrameworkFacts.

(* ===================================================================== *)
(** * Properties: Evidence                                                *)
(* ===================================================================== *)

Module EvidenceFacts.

Import JSFacts.
Import EvidenceModel.

(** Unfolds the clock monad. *)
Ltac run_eff := unfold run, bind, ret, newDate; simpl.

(** The factory in closed form: which checks fail decides the outcome,
    and each failing check contributes its error. *)
Lemma createEvidence_closed (input : CreateEvidenceInput) (clk : Clock) :
  run (createEvidence input) clk =
  if idFails input
     || expiryFails input (now clk)
     || collectionFails input (collectionCheckTime input clk)
  then err (expectedErrors input clk)
  else ok (evidenceOf input).
Proof.
  unfold createEvidence, evidenceId, expectedErrors, evidenceOf,
    idFails, expiryFails, collectionFails, collectionCheckTime.
  rewrite ValueObjectsFacts.createId_spec.
  destruct input as [i c ty col ex de]; simpl.
  destruct (whitespaceOnly i), ex as [[x|]|], col as [y|];
    run_eff; unfold date_gt; simpl;
    repeat match goal with
           | |- context [(?a <=? ?b)%Z] => destruct (a <=? b)%Z; simpl
           | |- context [(?a <? ?b)%Z] => destruct (a <? b)%Z; simpl
           end; reflexivity.
Qed.

Lemma idFails_trim (input : CreateEvidenceInput) :
  idFails input = true <-> trim (in_id input) = [].
Proof. unfold idFails, whitespaceOnly. symmetry. apply trim_nil. Qed.

Lemma expiryFails_notAfter (input : CreateEvidenceInput) (t : Z) :
  expiryFails input t = true
  <-> exists d, in_expiresAt input = Some d /\ notAfter d t.
Proof.
  unfold expiryFails, notAfter.
  destruct (in_expiresAt input) as [[x|]|].
  - rewrite Z.leb_le. split.
    + intros H. exists (DateOf x). split; [reflexivity |]. exists x. auto.
    + intros (d & Hd & y & Hy & Hle). inversion Hd; subst.
      inversion H0; subst. exact Hle.
  - split; [discriminate |].
    intros (d & Hd & y & Hy & _). inversion Hd; subst. discriminate.
  - split; [discriminate | intros (d & Hd & _); discriminate].
Qed.

Lemma collectionFails_after (input : CreateEvidenceInput) (t : Z) :
  collectionFails input t = true <-> after (in_collectedAt input) t.
Proof.
  unfold collectionFails, after.
  destruct (in_collectedAt input) as [x|].
  - rewrite Z.ltb_lt. split.
    + intros H. exists x. auto.
    + intros (y & Hy & Hlt). inversion Hy; subst. exact Hlt.
  - split; [discriminate | intros (y & Hy & _); discriminate].
Qed.

(** C9. [createEvidence] makes three checks: the identifier is empty
    once trimmed (EMPTY_ID); [expiresAt] is present and not after the
    current time (INVALID_EXPIRATION, so an expiry equal to now fails);
    [collectedAt] is after the current time (INVALID_COLLECTION_DATE, so
    a collection date equal to now passes).  The current time of a check
    is the reading of the clock made for it.  The factory returns an
    error exactly when at least one check fails; all three checks are
    always made, and the error list holds one error per failing check,
    in the order of the checks, so it is never empty; the result is
    [ok] of the evidence built from the input exactly when no check
    fails. *)
Theorem createEvidence_spec (input : CreateEvidenceInput) (clk : Clock) :
  (idFails input = true <-> trim (in_id input) = [])
  /\ (expiryFails input (now clk) = true
      <-> exists d, in_expiresAt input = Some d /\ notAfter d (now clk))
  /\ (collectionFails input (collectionCheckTime input clk) = true
      <-> after (in_collectedAt input) (collectionCheckTime input clk))
  /\ ((exists errs, run (createEvidence input) clk = err errs)
      <-> (idFails input = true
           \/ expiryFails input (now clk) = true
           \/ collectionFails input (collectionCheckTime input clk) = true))
  /\ (forall errs, run (createEvidence input) clk = err errs ->
        errs = expectedErrors input clk
        /\ errs <> []
        /\ List.length errs
           = (Nat.b2n (idFails input)
              + Nat.b2n (expiryFails input (now clk))
              + Nat.b2n (collectionFails input
                           (collectionCheckTime input clk)))%nat
        /\ List.length (withCode (js "EMPTY_ID") errs)
           = Nat.b2n (idFails input)
        /\ List.length (withCode (js "INVALID_EXPIRATION") errs)
           = Nat.b2n (expiryFails input (now clk))
        /\ List.length (withCode (js "INVALID_COLLECTION_DATE") errs)
           = Nat.b2n (collectionFails input (collectionCheckTime input clk)))
  /\ ((idFails input = false
       /\ expiryFails input (now clk) = false
       /\ collectionFails input (collectionCheckTime input clk) = false)
      <-> run (createEvidence input) clk = ok (evidenceOf input))
  /\ (in_expiresAt input = Some (DateOf (now clk)) ->
      expiryFails input (now clk) = true)
  /\ (in_collectedAt input = DateOf (collectionCheckTime input clk) ->
      collectionFails input (collectionCheckTime input clk) = false).
Proof.
  split; [apply idFails_trim |].
  split; [apply expiryFails_notAfter |].
  split; [apply collectionFails_after |].
  rewrite createEvidence_closed. unfold expectedErrors.
  destruct (idFails input) eqn:E1,
           (expiryFails input (now clk)) eqn:E2,
           (collectionFails input (collectionCheckTime input clk)) eqn:E3;
    simpl;
    (split; [split; [intros [errs H]; try discriminate; tauto
                    | intros H; try (eexists; reflexivity);
                      destruct H as [H | [H | H]]; discriminate] |]);
    (split; [intros errs H; try discriminate; inversion H; subst;
             repeat split; discriminate |]);
    (split; [split; [intros (H1 & H2 & H3); try discriminate; reflexivity
                    | intros H; try discriminate; auto] |]);
    (split; [intros H; unfold expiryFails in E2; rewrite H in E2;
             rewrite Z.leb_refl in E2; congruence
            | intros H; unfold collectionFails in E3; rewrite H in E3;
              rewrite Z.ltb_irrefl in E3; congruence]).
Qed.

(** The derived status in closed form. *)
Lemma getEvidenceStatus_closed (e : Evidence) (clk : Clock) :
  run (getEvidenceStatus e) clk =
  if match expiresAt e with
     | Some d => date_lt d (DateOf (now clk))
     | None => false
     end
  then Expired
  else match evidenceType e with
       | AutomatedCheck _ _ _ (Failed _) => Rejected
       | AutomatedCheck _ _ _ (Skipped _) => Pending
       | _ => Valid
       end.
Proof.
  unfold getEvidenceStatus.
  destruct (expiresAt e) as [d|]; run_eff.
  - destruct (date_lt d (DateOf (now clk))); [reflexivity |].
    destruct (evidenceType e) as [| |i n l [| |]|]; reflexivity.
  - destruct (evidenceType e) as [| |i n l [| |]|]; reflexivity.
Qed.

(** C3. [getEvidenceStatus] returns Expired whenever the evidence has an
    expiry strictly before the current time, whatever its type (an
    automated check that passed included).  Otherwise an automated check
    is Rejected when its result is Failed, Pending when Skipped and
    Valid when Passed, and every other kind of evidence is Valid.  The
    status depends on the evidence and the current time only. *)
Theorem getEvidenceStatus_spec (e : Evidence) (clk : Clock) :
  (expiredAt e (now clk) -> run (getEvidenceStatus e) clk = Expired)
  /\ (~ expiredAt e (now clk) ->
      (forall i n l r, evidenceType e = AutomatedCheck i n l (Failed r) ->
         run (getEvidenceStatus e) clk = Rejected)
      /\ (forall i n l r, evidenceType e = AutomatedCheck i n l (Skipped r) ->
            run (getEvidenceStatus e) clk = Pending)
      /\ (forall i n l, evidenceType e = AutomatedCheck i n l Passed ->
            run (getEvidenceStatus e) clk = Valid)
      /\ ((forall i n l r, evidenceType e <> AutomatedCheck i n l r) ->
          run (getEvidenceStatus e) clk = Valid))
  /\ (forall clk', now clk' = now clk ->
        run (getEvidenceStatus e) clk' = run (getEvidenceStatus e) clk).
Proof.
  rewrite getEvidenceStatus_closed. unfold expiredAt.
  split; [| split].
  - intros (d & Hd & Hb). rewrite Hd.
    apply date_lt_before in Hb. rewrite Hb. reflexivity.
  - intros Hn.
    assert (Hex : match expiresAt e with
                  | Some d => date_lt d (DateOf (now clk))
                  | None => false
                  end = false).
    { destruct (expiresAt e) as [d|] eqn:Ed; [| reflexivity].
      destruct (date_lt d (DateOf (now clk))) eqn:El; [| reflexivity].
      exfalso. apply Hn. exists d. split; [reflexivity |].
      apply date_lt_before. exact El. }
    rewrite Hex.
    split; [| split; [| split]].
    + intros i n l r ->. reflexivity.
    + intros i n l r ->. reflexivity.
    + intros i n l ->. reflexivity.
    + intros Hna. destruct (evidenceType e) as [| |i n l r|]; try reflexivity.
      exfalso. exact (Hna i n l r eq_refl).
  - intros clk' Hnow. rewrite getEvidenceStatus_closed, Hnow. reflexivity.
Qed.

End EvidenceFacts.

(* ===================================================================== *)
(** * Properties: Risk                                                    *)
(* ===================================================================== *)

Module RiskFacts.

Import JSFacts.
Import RiskModel.

Ltac run_eff := unfold run, bind, ret, newDate; simpl.

(** The transition in closed form. *)
Lemma updateRiskStatus_closed (r : Risk) (s : RiskStatus) (clk : Clock) :
  run (updateRiskStatus r s) clk =
  if isClosed (status r) then err err_closed
  else if match acceptedUntil s with
          | Some d => date_le d (DateOf (now clk))
          | None => false
          end
       then err err_acceptance
       else ok (with_status r s).
Proof.
  unfold updateRiskStatus.
  destruct (status r); simpl; try reflexivity;
    destruct s; run_eff; try reflexivity;
    match goal with
    | |- context [date_le ?a ?b] => destruct (date_le a b); reflexivity
    end.
Qed.

(** C2. [updateRiskStatus r s]: if [r] is Closed the result is the
    error INVALID_TRANSITION, whatever [s] is; otherwise, if [s] is
    Accepted with an expiry that is not after the current time, it is
    the error INVALID_EXPIRATION; in every other case it is [ok] of [r]
    with its status replaced by [s] and nothing else changed. *)
Theorem updateRiskStatus_spec (r : Risk) (s : RiskStatus) (clk : Clock) :
  (isClosed (status r) = true ->
     exists e, run (updateRiskStatus r s) clk = err e
               /\ code e = js "INVALID_TRANSITION")
  /\ (isClosed (status r) = false ->
      (exists d, acceptedUntil s = Some d /\ notAfter d (now clk)) ->
      exists e, run (updateRiskStatus r s) clk = err e
                /\ code e = js "INVALID_EXPIRATION")
  /\ (isClosed (status r) = false ->
      ~ (exists d, acceptedUntil s = Some d /\ notAfter d (now clk)) ->
      exists r', run (updateRiskStatus r s) clk = ok r'
        /\ status r' = s
        /\ id r' = id r /\ title r' = title r
        /\ description r' = description r /\ category r' = category r
        /\ inherentScore r' = inherentScore r
        /\ residualScore r' = residualScore r
        /\ ownerId r' = ownerId r).
Proof.
  rewrite updateRiskStatus_closed.
  split; [| split].
  - intros ->. eexists; split; reflexivity.
  - intros -> (d & Hd & Hle). rewrite Hd.
    apply date_le_notAfter in Hle. rewrite Hle.
    eexists; split; reflexivity.
  - intros -> Hn.
    destruct (acceptedUntil s) as [d|] eqn:Ed.
    + destruct (date_le d (DateOf (now clk))) eqn:El.
      * exfalso. apply Hn. exists d. split; [reflexivity |].
        apply date_le_notAfter. exact El.
      * exists (with_status r s). simpl. repeat split; reflexivity.
    + exists (with_status r s). simpl. repeat split; reflexivity.
Qed.

(** C4. For each of the 16 pairs of levels the score value is the
    product of the ordinals (Low=1, Medium=2, High=3, Critical=4) and
    the label names the band of the value: Low up to 2, Medium up to 6,
    High up to 12, Critical above; so 2 is Low, 3 and 6 are Medium, 7
    and 12 are High and 13 is Critical. *)
Theorem calculateRiskScore_spec :
  (forall l i : RiskLevel,
      In l allLevels /\ In i allLevels
      /\ value (calculateRiskScore l i) = (ordinal l * ordinal i)%Z
      /\ label (calculateRiskScore l i)
         = levelName (band (value (calculateRiskScore l i)))
      /\ likelihood (calculateRiskScore l i) = l
      /\ impact (calculateRiskScore l i) = i)
  /\ List.length (list_prod allLevels allLevels) = 16%nat
  /\ (forall v : Z,
        ((v <= 2)%Z -> band v = Low)
        /\ ((2 < v <= 6)%Z -> band v = Medium)
        /\ ((6 < v <= 12)%Z -> band v = High)
        /\ ((12 < v)%Z -> band v = Critical))
  /\ band 2 = Low /\ band 3 = Medium /\ band 6 = Medium
  /\ band 7 = High /\ band 12 = High /\ band 13 = Critical.
Proof.
  split; [| split; [| split]].
  - intros l i. destruct l, i; simpl; repeat split; tauto.
  - reflexivity.
  - intros v. unfold band.
    destruct (Z.leb_spec v 2), (Z.leb_spec v 6), (Z.leb_spec v 12);
      repeat split; intros; try reflexivity; lia.
  - repeat split.
Qed.

(** The Risk factory succeeds on an identifier and a title that are not
    blank, and returns the two scores equal. *)
Lemma createRisk_closed (input : CreateRiskInput) (clk : Clock) :
  whitespaceOnly (in_id input) = false ->
  whitespaceOnly (in_title input) = false ->
  run (createRisk input) clk =
  ok {| id := in_id input;
        title := in_title input;
        description := in_description input;
        category := in_category input;
        inherentScore :=
          calculateRiskScore (in_likelihood input) (in_impact input);
        residualScore :=
          calculateRiskScore (in_likelihood input) (in_impact input);
        status := Identified (DateOf (now clk));
        ownerId := in_ownerId input |}.
Proof.
  intros Hid Ht. unfold createRisk, riskId.
  rewrite ValueObjectsFacts.createId_spec, Hid, blank_whitespaceOnly, Ht.
  reflexivity.
Qed.

Lemma createRisk_ok_inv (input : CreateRiskInput) (clk : Clock) (r : Risk) :
  run (createRisk input) clk = ok r ->
  whitespaceOnly (in_id input) = false
  /\ whitespaceOnly (in_title input) = false.
Proof.
  unfold createRisk, riskId.
  rewrite ValueObjectsFacts.createId_spec, blank_whitespaceOnly.
  destruct (whitespaceOnly (in_id input)), (whitespaceOnly (in_title input));
    simpl; run_eff; intros H; try discriminate; auto.
Qed.

(** C10. A risk that comes out of [createRisk] has its inherent score
    equal to [calculateRiskScore likelihood impact] and its residual
    score equal to its inherent score (and the factory does return a
    risk when the identifier and the title are not blank).
    [updateResidualScore] is a total function that returns a risk, not a
    result: it sets the residual score to [calculateRiskScore l i] and
    leaves the inherent score and every other field as they were. *)
Theorem risk_scores_spec :
  (forall input clk r,
      run (createRisk input) clk = ok r ->
      inherentScore r
      = calculateRiskScore (in_likelihood input) (in_impact input)
      /\ residualScore r = inherentScore r)
  /\ (forall input clk,
        whitespaceOnly (in_id input) = false ->
        whitespaceOnly (in_title input) = false ->
        exists r, run (createRisk input) clk = ok r)
  /\ (forall (r : Risk) (l i : RiskLevel),
        residualScore (updateResidualScore r l i) = calculateRiskScore l i
        /\ inherentScore (updateResidualScore r l i) = inherentScore r
        /\ id (updateResidualScore r l i) = id r
        /\ title (updateResidualScore r l i) = title r
        /\ description (updateResidualScore r l i) = description r
        /\ category (updateResidualScore r l i) = category r
        /\ status (updateResidualScore r l i) = status r
        /\ ownerId (updateResidualScore r l i) = ownerId r).
Proof.
  split; [| split].
  - intros input clk r H.
    destruct (createRisk_ok_inv _ _ H) as [Hid Ht].
    rewrite (createRisk_closed _ clk Hid Ht) in H.
    inversion H; subst. simpl. auto.
  - intros input clk Hid Ht. rewrite (createRisk_closed _ clk Hid Ht).
    eexists; reflexivity.
  - intros r l i. simpl. repeat split; reflexivity.
Qed.

End RiskFacts.

(* ===================================================================== *)
(** * Scenarios                                                           *)
(* ===================================================================== *)

(** The properties above, applied to concrete entities under a clock
    that stands at 5000. *)

Module Scenarios.

Import JSFacts.

(** Failed to Implemented is refused; NotImplemented to Implemented is
    not. *)
Lemma updateControlStatus_spec_witness :
  (exists e,
      ControlModel.updateControlStatus
        (Samples.control (ControlModel.Failed (js "finding") (DateOf 1000)))
        (ControlModel.Implemented (DateOf 2000)) = err e)
  /\ (exists c',
         ControlModel.updateControlStatus
           (Samples.control ControlModel.NotImplemented)
           (ControlModel.Implemented (DateOf 2000)) = ok c'
         /\ ControlModel.status c' = ControlModel.Implemented (DateOf 2000)).
Proof.
  split.
  - apply (proj1 (ControlFacts.updateControlStatus_spec
                    (Samples.control
                       (ControlModel.Failed (js "finding") (DateOf 1000)))
                    (ControlModel.Implemented (DateOf 2000)))).
    split; reflexivity.
  - destruct (proj2 (proj2 (ControlFacts.updateControlStatus_spec
                              (Samples.control ControlModel.NotImplemented)
                              (ControlModel.Implemented (DateOf 2000)))))
      as (c' & Hc & Hs & _).
    + simpl. intros [H _]. discriminate.
    + exists c'. auto.
Defined.

(** A closed risk refuses every transition; an acceptance that expires
    at 5000 is refused at 5000, one that expires at 5001 is taken. *)
Lemma updateRiskStatus_spec_witness :
  (exists e,
      run (RiskModel.updateRiskStatus
             (Samples.risk (RiskModel.Closed (DateOf 1000) (js "fixed")))
             (RiskModel.Identified (DateOf 2000))) (frozen 5000) = err e
      /\ code e = js "INVALID_TRANSITION")
  /\ (exists e,
         run (RiskModel.updateRiskStatus
                (Samples.risk (RiskModel.Identified (DateOf 1000)))
                (RiskModel.Accepted (js "user-1") (js "low") (DateOf 5000)))
             (frozen 5000) = err e
         /\ code e = js "INVALID_EXPIRATION")
  /\ (exists r',
         run (RiskModel.updateRiskStatus
                (Samples.risk (RiskModel.Identified (DateOf 1000)))
                (RiskModel.Accepted (js "user-1") (js "low") (DateOf 5001)))
             (frozen 5000) = ok r'
         /\ RiskModel.status r'
            = RiskModel.Accepted (js "user-1") (js "low") (DateOf 5001)).
Proof.
  split; [| split].
  - apply (proj1 (RiskFacts.updateRiskStatus_spec _ _ _)). reflexivity.
  - apply (proj1 (proj2 (RiskFacts.updateRiskStatus_spec _ _ _)));
      [reflexivity |].
    exists (DateOf 5000). split; [reflexivity |].
    exists 5000%Z. split; [reflexivity | unfold now, frozen; lia].
  - destruct (proj2 (proj2 (RiskFacts.updateRiskStatus_spec
                (Samples.risk (RiskModel.Identified (DateOf 1000)))
                (RiskModel.Accepted (js "user-1") (js "low") (DateOf 5001))
                (frozen 5000))))
      as (r' & Hr & Hs & _).
    + reflexivity.
    + intros (d & Hd & x & Hx & Hle). simpl in Hd.
      injection Hd as <-. injection Hx as <-.
      unfold now, frozen in Hle. lia.
    + exists r'. auto.
Defined.

(** An automated check that passed, with an expiry in the past, is
    Expired. *)
Lemma getEvidenceStatus_spec_witness :
  run (EvidenceModel.getEvidenceStatus
         (Samples.evidence Samples.passedCheck (Some (DateOf 4999))))
      (frozen 5000)
  = EvidenceModel.Expired.
Proof.
  apply (proj1 (EvidenceFacts.getEvidenceStatus_spec _ _)).
  exists (DateOf 4999). split; [reflexivity |].
  exists 4999%Z. split; [reflexivity | unfold now, frozen; lia].
Defined.

(** High by Critical is 12, which is High. *)
Lemma calculateRiskScore_spec_witness :
  RiskModel.value
    (RiskModel.calculateRiskScore RiskModel.High RiskModel.Critical) = 12%Z
  /\ RiskModel.label
       (RiskModel.calculateRiskScore RiskModel.High RiskModel.Critical)
     = js "High".
Proof.
  destruct (proj1 RiskFacts.calculateRiskScore_spec
              RiskModel.High RiskModel.Critical)
    as (_ & _ & Hv & Hl & _).
  split; [exact Hv | exact Hl].
Defined.

(** A framework fresh from the factory cannot be activated, and can be
    once it has a control. *)
Lemma updateFrameworkStatus_spec_witness :
  exists f,
    FrameworkModel.createFramework Samples.frameworkInput = ok f
    /\ (exists e,
           FrameworkModel.updateFrameworkStatus f FrameworkModel.Active
           = err e
           /\ code e = js "NO_CONTROLS")
    /\ (exists f',
           FrameworkModel.updateFrameworkStatus
             (FrameworkModel.addControlToFramework f (js "ctl-1"))
             FrameworkModel.Active = ok f'
           /\ FrameworkModel.status f' = FrameworkModel.Active
           /\ FrameworkModel.controlIds f' = [js "ctl-1"]).
Proof.
  eexists. split; [reflexivity |].
  match goal with
  | |- context [FrameworkModel.updateFrameworkStatus ?f _] =>
      destruct (proj2 (proj2 (proj2 (proj2
                 (FrameworkFacts.updateFrameworkStatus_spec
                    f FrameworkModel.Active))))
                  Samples.frameworkInput eq_refl) as [H1 H2]
  end.
  split; [exact H1 | exact (H2 (js "ctl-1"))].
Defined.

(** Adding the same control twice to a framework without controls leaves
    one occurrence of it. *)
Lemma addControlToFramework_spec_witness :
  occurrences (js "ctl-1")
    (FrameworkModel.controlIds
       (FrameworkModel.addControlToFramework
          (FrameworkModel.addControlToFramework
             (Samples.framework FrameworkModel.Draft [js "ctl-0"])
             (js "ctl-1"))
          (js "ctl-1")))
  = 1%nat.
Proof.
  apply (proj1 (proj2 (proj2 (proj2 (proj2 (proj2
           (FrameworkFacts.addControlToFramework_spec
              (Samples.framework FrameworkModel.Draft [js "ctl-0"])
              (js "ctl-1")))))))).
  simpl. repeat constructor. intros [].
Defined.

(** The two boundaries: an expiry equal to now is refused, a collection
    date equal to now is taken. *)
Lemma createEvidence_spec_witness :
  EvidenceModel.in_expiresAt
    (Samples.evidenceInput (js "ev-1") (DateOf 5000) (Some (DateOf 5000)))
  = Some (DateOf (now (frozen 5000)))
  /\ expiryFails
       (Samples.evidenceInput (js "ev-1") (DateOf 5000) (Some (DateOf 5000)))
       (now (frozen 5000)) = true
  /\ run (EvidenceModel.createEvidence
            (Samples.evidenceInput (js "ev-1") (DateOf 5000) None))
         (frozen 5000)
     = ok (evidenceOf (Samples.evidenceInput (js "ev-1") (DateOf 5000) None)).
Proof.
  split; [reflexivity |]. split.
  - apply (EvidenceFacts.createEvidence_spec
             (Samples.evidenceInput (js "ev-1") (DateOf 5000)
                                    (Some (DateOf 5000)))
             (frozen 5000)).
    reflexivity.
  - apply (EvidenceFacts.createEvidence_spec
             (Samples.evidenceInput (js "ev-1") (DateOf 5000) None)
             (frozen 5000)).
    repeat split.
Defined.

(** A new risk has both scores equal; lowering the residual score leaves
    the inherent one. *)
Lemma risk_scores_spec_witness :
  exists r,
    run (RiskModel.createRisk Samples.riskInput) (frozen 5000) = ok r
    /\ RiskModel.residualScore r = RiskModel.inherentScore r
    /\ RiskModel.value (RiskModel.inherentScore r) = 12%Z
    /\ RiskModel.value
         (RiskModel.residualScore
            (RiskModel.updateResidualScore r RiskModel.Low RiskModel.Medium))
       = 2%Z
    /\ RiskModel.value
         (RiskModel.inherentScore
            (RiskModel.updateResidualScore r RiskModel.Low RiskModel.Medium))
       = 12%Z.
Proof.
  destruct RiskFacts.risk_scores_spec as (Hcreate & Hsucc & Hupd).
  destruct (Hsucc Samples.riskInput (frozen 5000) eq_refl eq_refl)
    as [r Hr].
  exists r. split; [exact Hr |].
  destruct (Hcreate _ _ _ Hr) as [Hi Hres].
  destruct (Hupd r RiskModel.Low RiskModel.Medium) as (H1 & H2 & _).
  rewrite H1, H2, Hres, Hi. repeat split.
Defined.

End Scenarios.

(* ===================================================================== *)
(** * Further properties: the result container                            *)
(* ===================================================================== *)

Module ResultFacts.

(** X1. [flatMap] with [ok] obeys the monad laws: [ok] is a left and a
    right unit, chained calls associate, and an error passes through
    whatever function it is chained with. *)
Theorem flatMap_monad_laws :
  (forall (T U E : Type) (v : T) (f : T -> Result U E),
      flatMap (ok v) f = f v)
  /\ (forall (T E : Type) (r : Result T E), flatMap r ok = r)
  /\ (forall (T U V E : Type) (r : Result T E)
             (f : T -> Result U E) (g : U -> Result V E),
        flatMap (flatMap r f) g = flatMap r (fun x => flatMap (f x) g))
  /\ (forall (T U E : Type) (e : E) (f g : T -> Result U E),
        flatMap (err e) f = flatMap (err e) g
        /\ flatMap (err e) f = err e).
Proof.
  split; [reflexivity |].
  split; [intros T E [v | e]; reflexivity |].
  split; [intros T U V E [v | e] f g; reflexivity |].
  intros; split; reflexivity.
Qed.

(** X2. [map] and [mapError] are functorial, each on its own side:
    they preserve identities and composition, they commute with each
    other, [map] is [flatMap] followed by [ok], and neither changes
    whether a result is a success. *)
Theorem map_mapError_laws :
  (forall (T E : Type) (r : Result T E),
      map r (fun x => x) = r /\ mapError r (fun e => e) = r)
  /\ (forall (T U V E : Type) (r : Result T E) (f : T -> U) (g : U -> V),
        map (map r f) g = map r (fun x => g (f x)))
  /\ (forall (T E F G : Type) (r : Result T E) (f : E -> F) (g : F -> G),
        mapError (mapError r f) g = mapError r (fun e => g (f e)))
  /\ (forall (T U E F : Type) (r : Result T E) (f : T -> U) (g : E -> F),
        mapError (map r f) g = map (mapError r g) f)
  /\ (forall (T U E : Type) (r : Result T E) (f : T -> U),
        map r f = flatMap r (fun x => ok (f x)))
  /\ (forall (T U E F : Type) (r : Result T E) (f : T -> U) (g : E -> F),
        is_ok (map r f) = is_ok r /\ is_ok (mapError r g) = is_ok r).
Proof.
  repeat split; intros; destruct r; reflexivity.
Qed.


End ResultFacts.

(* ===================================================================== *)
(** * Further properties: the factories                                   *)
(* ===================================================================== *)

Module FactoryFacts.

Import JSFacts.
Import FactoryTerms.

(** ** The version pattern *)

Lemma dot_not_digit : isDigit 0x2E%N = false.
Proof. reflexivity. Qed.

(** [skipDigits] removes a run of digits that is followed by the end of
    the input or by something that is not a digit. *)
Lemma skipDigits_app (a r : jsstring) :
  forallb isDigit a = true ->
  match r with [] => True | c :: _ => isDigit c = false end ->
  FrameworkModel.skipDigits (a ++ r) = r.
Proof.
  intros Ha Hr. induction a as [|x a IH]; simpl.
  - destruct r as [|c r]; [reflexivity |]. simpl. rewrite Hr. reflexivity.
  - simpl in Ha. apply andb_true_iff in Ha. destruct Ha as [Hx Ha].
    rewrite Hx. apply IH. exact Ha.
Qed.

Lemma skipDigits_split (s : jsstring) :
  exists a,
    s = a ++ FrameworkModel.skipDigits s
    /\ forallb isDigit a = true
    /\ match FrameworkModel.skipDigits s with
       | [] => True
       | c :: _ => isDigit c = false
       end.
Proof.
  induction s as [|x s IH]; simpl.
  - exists []. auto.
  - destruct (isDigit x) eqn:Ex.
    + destruct IH as (a & Hs & Ha & Hr). exists (x :: a).
      simpl. rewrite Ex, Ha. split; [f_equal; exact Hs | auto].
    + exists []. simpl. rewrite Ex. auto.
Qed.

Lemma digits1_app (a r : jsstring) :
  digitRun a ->
  match r with [] => True | c :: _ => isDigit c = false end ->
  FrameworkModel.digits1 (a ++ r) = Some r.
Proof.
  intros [Hne Ha] Hr. destruct a as [|x a]; [congruence |].
  simpl in *. apply andb_true_iff in Ha. destruct Ha as [Hx Ha].
  rewrite Hx. f_equal. apply skipDigits_app; assumption.
Qed.

Lemma digits1_split (s r : jsstring) :
  FrameworkModel.digits1 s = Some r ->
  exists a, digitRun a /\ s = a ++ r.
Proof.
  unfold FrameworkModel.digits1. destruct s as [|x s]; [discriminate |].
  destruct (isDigit x) eqn:Ex; [| discriminate].
  intros H. inversion H; subst; clear H.
  destruct (skipDigits_split s) as (a & Hs & Ha & _).
  exists (x :: a). split.
  - split; [discriminate | simpl; rewrite Ex, Ha; reflexivity].
  - simpl. f_equal. exact Hs.
Qed.

Lemma dot_split (s r : jsstring) :
  FrameworkModel.dot s = Some r <-> s = js "." ++ r.
Proof.
  unfold FrameworkModel.dot. destruct s as [|c s]; simpl.
  - split; discriminate.
  - destruct (N.eqb_spec c 0x2E) as [-> | Hc].
    + split; intros H; inversion H; reflexivity.
    + split; [discriminate |]. intros H. inversion H. contradiction.
Qed.

Lemma versionPattern_test_iff (s : jsstring) :
  FrameworkModel.versionPattern_test s = true <-> isVersion s.
Proof.
  unfold FrameworkModel.versionPattern_test, isVersion. split.
  - destruct (FrameworkModel.digits1 s) as [r1|] eqn:E1; [| discriminate].
    destruct (FrameworkModel.dot r1) as [r2|] eqn:E2; [| discriminate].
    destruct (FrameworkModel.digits1 r2) as [r3|] eqn:E3; [| discriminate].
    apply digits1_split in E1. destruct E1 as (a & Ha & ->).
    apply dot_split in E2. subst r1.
    apply digits1_split in E3. destruct E3 as (b & Hb & ->).
    destruct r3 as [|c3 r3].
    + intros _. exists a, b. rewrite app_nil_r. auto.
    + destruct (FrameworkModel.dot (c3 :: r3)) as [r4|] eqn:E4;
        [| discriminate].
      apply dot_split in E4. rewrite E4.
      destruct (FrameworkModel.digits1 r4) as [[|x r5]|] eqn:E5;
        try discriminate.
      apply digits1_split in E5. destruct E5 as (c & Hc & ->).
      rewrite app_nil_r. intros _. exists a, b.
      split; [exact Ha | split; [exact Hb |]]. right. exists c. auto.
  - intros (a & b & Ha & Hb & [-> | (c & Hc & ->)]).
    + rewrite (digits1_app (js "." ++ b) Ha dot_not_digit).
      simpl. rewrite <- (app_nil_r b).
      rewrite (digits1_app ([]) Hb I). reflexivity.
    + rewrite (digits1_app (js "." ++ b ++ js "." ++ c) Ha
                           dot_not_digit).
      simpl. change (b ++ 0x2E%N :: c) with (b ++ js "." ++ c).
      rewrite (digits1_app (js "." ++ c) Hb dot_not_digit).
      simpl. rewrite <- (app_nil_r c).
      rewrite (digits1_app ([]) Hc I). reflexivity.
Qed.

(** X4. The version test of [createFramework] accepts exactly the
    strings made of two or three non-empty runs of ASCII digits
    separated by single dots. *)
Theorem versionPattern_test_isVersion (s : jsstring) :
  FrameworkModel.versionPattern_test s = true <-> isVersion s.
Proof. exact (versionPattern_test_iff s). Qed.

(** ** The three remaining factories in closed form *)

Lemma createControl_closed (input : ControlModel.CreateControlInput) :
  ControlModel.createControl input =
  if whitespaceOnly (ControlModel.in_id input)
     || whitespaceOnly (ControlModel.in_code input)
     || whitespaceOnly (ControlModel.in_title input)
  then err (controlErrors input)
  else ok (controlOf input).
Proof.
  unfold ControlModel.createControl, controlId, controlErrors, controlOf.
  rewrite ValueObjectsFacts.createId_spec, !blank_whitespaceOnly.
  destruct (whitespaceOnly (ControlModel.in_id input)),
           (whitespaceOnly (ControlModel.in_code input)),
           (whitespaceOnly (ControlModel.in_title input)); reflexivity.
Qed.

Lemma createFramework_closed (input : FrameworkModel.CreateFrameworkInput) :
  FrameworkModel.createFramework input =
  if whitespaceOnly (FrameworkModel.in_id input)
     || whitespaceOnly (FrameworkModel.in_name input)
     || negb (FrameworkModel.versionPattern_test
                (FrameworkModel.in_version input))
  then err (frameworkErrors input)
  else ok (frameworkOf input).
Proof.
  unfold FrameworkModel.createFramework, frameworkId, frameworkErrors,
    frameworkOf.
  rewrite ValueObjectsFacts.createId_spec, !blank_whitespaceOnly.
  destruct (whitespaceOnly (FrameworkModel.in_id input)),
           (whitespaceOnly (FrameworkModel.in_name input)),
           (FrameworkModel.versionPattern_test
              (FrameworkModel.in_version input)); reflexivity.
Qed.



(** X5. [createControl] checks the identifier, the code and the title,
    all three every time.  It returns an error exactly when one of them
    is empty or whitespace-only, with one error per failing check in
    that order (EMPTY_ID for the identifier, REQUIRED for the other
    two), so never an empty list; otherwise it returns a control that
    carries the input fields unchanged and the status NotImplemented. *)
Theorem createControl_spec (input : ControlModel.CreateControlInput) :
  ((exists errs, ControlModel.createControl input = err errs)
   <-> (whitespaceOnly (ControlModel.in_id input) = true
        \/ whitespaceOnly (ControlModel.in_code input) = true
        \/ whitespaceOnly (ControlModel.in_title input) = true))
  /\ (forall errs, ControlModel.createControl input = err errs ->
        errs = controlErrors input
        /\ errs <> []
        /\ List.length errs
           = (Nat.b2n (whitespaceOnly (ControlModel.in_id input))
              + Nat.b2n (whitespaceOnly (ControlModel.in_code input))
              + Nat.b2n (whitespaceOnly (ControlModel.in_title input)))%nat
        /\ List.length (withCode (js "EMPTY_ID") errs)
           = Nat.b2n (whitespaceOnly (ControlModel.in_id input))
        /\ List.length (withCode (js "REQUIRED") errs)
           = (Nat.b2n (whitespaceOnly (ControlModel.in_code input))
              + Nat.b2n (whitespaceOnly (ControlModel.in_title input)))%nat)
  /\ (forall c, ControlModel.createControl input = ok c ->
        ControlModel.id c = ControlModel.in_id input
        /\ ControlModel.frameworkId c = ControlModel.in_frameworkId input
        /\ ControlModel.code c = ControlModel.in_code input
        /\ ControlModel.title c = ControlModel.in_title input
        /\ ControlModel.description c = ControlModel.in_description input
        /\ ControlModel.ownerId c = ControlModel.in_ownerId input
        /\ ControlModel.status c = ControlModel.NotImplemented
        /\ whitespaceOnly (ControlModel.id c) = false
        /\ whitespaceOnly (ControlModel.code c) = false
        /\ whitespaceOnly (ControlModel.title c) = false).
Proof.
  rewrite createControl_closed. unfold controlErrors.
  destruct (whitespaceOnly (ControlModel.in_id input)) eqn:E1,
           (whitespaceOnly (ControlModel.in_code input)) eqn:E2,
           (whitespaceOnly (ControlModel.in_title input)) eqn:E3;
    simpl;
    (split; [split; [intros [errs H]; try discriminate; tauto
                    | intros H; try (eexists; reflexivity);
                      destruct H as [H | [H | H]]; discriminate] |]);
    (split; [intros errs H; try discriminate; inversion H; subst;
             repeat split; discriminate
            | intros c H; try discriminate; inversion H; subst; simpl;
              repeat split; assumption]).
Qed.

(** X6. [createFramework] checks the identifier, the name and the
    version, all three every time.  It returns an error exactly when
    the identifier or the name is empty or whitespace-only or the
    version is not two or three dot-separated digit runs, with one
    error per failing check in that order (EMPTY_ID, REQUIRED,
    INVALID_VERSION); otherwise it returns a framework that carries the
    input fields unchanged, in status Draft and without controls. *)
Theorem createFramework_spec (input : FrameworkModel.CreateFrameworkInput) :
  ((exists errs, FrameworkModel.createFramework input = err errs)
   <-> (whitespaceOnly (FrameworkModel.in_id input) = true
        \/ whitespaceOnly (FrameworkModel.in_name input) = true
        \/ ~ isVersion (FrameworkModel.in_version input)))
  /\ (forall errs, FrameworkModel.createFramework input = err errs ->
        errs = frameworkErrors input
        /\ errs <> []
        /\ List.length (withCode (js "EMPTY_ID") errs)
           = Nat.b2n (whitespaceOnly (FrameworkModel.in_id input))
        /\ List.length (withCode (js "REQUIRED") errs)
           = Nat.b2n (whitespaceOnly (FrameworkModel.in_name input))
        /\ List.length (withCode (js "INVALID_VERSION") errs)
           = Nat.b2n (negb (FrameworkModel.versionPattern_test
                              (FrameworkModel.in_version input)))
        /\ List.length errs
           = (List.length (withCode (js "EMPTY_ID") errs)
              + List.length (withCode (js "REQUIRED") errs)
              + List.length (withCode (js "INVALID_VERSION") errs))%nat)
  /\ (forall f, FrameworkModel.createFramework input = ok f ->
        FrameworkModel.id f = FrameworkModel.in_id input
        /\ FrameworkModel.type f = FrameworkModel.in_type input
        /\ FrameworkModel.name f = FrameworkModel.in_name input
        /\ FrameworkModel.version f = FrameworkModel.in_version input
        /\ FrameworkModel.description f = FrameworkModel.in_description input
        /\ FrameworkModel.status f = FrameworkModel.Draft
        /\ FrameworkModel.controlIds f = []
        /\ whitespaceOnly (FrameworkModel.id f) = false
        /\ whitespaceOnly (FrameworkModel.name f) = false
        /\ isVersion (FrameworkModel.version f)).
Proof.
  rewrite createFramework_closed. unfold frameworkErrors.
  pose proof (versionPattern_test_iff (FrameworkModel.in_version input))
    as Hv.
  destruct (whitespaceOnly (FrameworkModel.in_id input)) eqn:E1,
           (whitespaceOnly (FrameworkModel.in_name input)) eqn:E2,
           (FrameworkModel.versionPattern_test
              (FrameworkModel.in_version input)) eqn:E3;
    simpl;
    (split; [split; [intros [errs H]; try discriminate;
                     try tauto;
                     right; right; intros Hi; apply Hv in Hi; discriminate
                    | intros H; try (eexists; reflexivity);
                      destruct H as [H | [H | H]]; try discriminate;
                      exfalso; apply H, Hv; reflexivity] |]);
    (split; [intros errs H; try discriminate; inversion H; subst;
             repeat split; discriminate
            | intros f H; try discriminate; inversion H; subst; simpl;
              repeat split; try assumption; apply Hv; reflexivity]).
Qed.


End FactoryFacts.

(* ===================================================================== *)
(** * Further properties: life cycles                                     *)
(* ===================================================================== *)

Module ControlLifecycle.

Import ControlModel.
Import Lifecycle.

Lemma updateControlStatus_ok_inv (c c' : Control) (s : ControlStatus) :
  updateControlStatus c s = ok c' -> c' = with_status c s.
Proof.
  unfold updateControlStatus.
  destruct (status c), s; intros H; inversion H; reflexivity.
Qed.

Lemma ControlStep_frame (c c' : Control) :
  ControlStep c c' -> controlFrame c c'.
Proof.
  intros [c0 s c1 H]. apply updateControlStatus_ok_inv in H. subst.
  unfold controlFrame. simpl. repeat split; reflexivity.
Qed.

(** X8. The status graph of a control has one forbidden edge and
    nothing else: from any control, [NotImplemented] is always
    accepted, and from there every status is, so every status,
    Implemented after Failed included, is reached in two updates, with
    every other field of the control kept. *)
Theorem updateControlStatus_two_steps (c : Control) (s : ControlStatus) :
  exists c1 c2,
    updateControlStatus c NotImplemented = ok c1
    /\ updateControlStatus c1 s = ok c2
    /\ status c2 = s
    /\ controlFrame c c2.
Proof.
  exists (with_status c NotImplemented), (with_status c s).
  split; [unfold updateControlStatus; destruct (status c); reflexivity |].
  split; [unfold updateControlStatus; simpl; destruct s; reflexivity |].
  split; [reflexivity |].
  unfold controlFrame. simpl. repeat split; reflexivity.
Qed.

(** X9. Whatever sequence of status updates a control goes through,
    its identifier, framework, code, title, description and owner stay
    what they were; for a control that [createControl] returned they
    stay the input fields, and its first update is never refused. *)
Theorem control_evolution (c c' : Control) :
  ControlEvolves c c' ->
  controlFrame c c'
  /\ (forall input, createControl input = ok c ->
        id c' = in_id input
        /\ frameworkId c' = in_frameworkId input
        /\ code c' = in_code input
        /\ title c' = in_title input
        /\ description c' = in_description input
        /\ ownerId c' = in_ownerId input
        /\ forall s, exists c1,
             updateControlStatus c s = ok c1 /\ status c1 = s).
Proof.
  intros H.
  assert (Hf : controlFrame c c').
  { induction H as [c | c d e _ IH Hs].
    - unfold controlFrame. repeat split; reflexivity.
    - apply ControlStep_frame in Hs. unfold controlFrame in *.
      destruct IH as (? & ? & ? & ? & ? & ?).
      destruct Hs as (? & ? & ? & ? & ? & ?).
      repeat split; congruence. }
  split; [exact Hf |].
  intros input Hc. rewrite FactoryFacts.createControl_closed in Hc.
  destruct (_ || _); [discriminate |]. inversion Hc; subst; clear Hc.
  destruct Hf as (H1 & H2 & H3 & H4 & H5 & H6). simpl in *.
  repeat (split; [assumption |]).
  intros s. exists (with_status (FactoryTerms.controlOf input) s).
  split; [destruct s; reflexivity | reflexivity].
Qed.

End ControlLifecycle.

Module FrameworkLifecycle.

Import JSFacts.
Import FrameworkModel.
Import Lifecycle.

Lemma updateFrameworkStatus_ok_inv (f f' : Framework) (s : FrameworkStatus) :
  updateFrameworkStatus f s = ok f' ->
  f' = with_status f s
  /\ ~ (status f = Deprecated /\ s = Active)
  /\ (s = Active -> controlIds f <> []).
Proof.
  unfold updateFrameworkStatus.
  destruct (status f), s, (controlIds f); simpl; intros H;
    try discriminate; inversion H;
    (split; [reflexivity | split; [intros [? ?] | intros ?]; congruence]).
Qed.

Lemma addControlToFramework_nonempty (f : Framework) (x : ControlId) :
  controlIds (addControlToFramework f x) <> [].
Proof.
  pose proof (FrameworkFacts.addControlToFramework_In f x) as H.
  intros E. rewrite E in H. exact H.
Qed.

Lemma addControlToFramework_frame (f : Framework) (x : ControlId) :
  frameworkFrame f (addControlToFramework f x)
  /\ status (addControlToFramework f x) = status f
  /\ exists rest, controlIds (addControlToFramework f x)
                  = controlIds f ++ rest.
Proof.
  unfold addControlToFramework, frameworkFrame.
  destruct (includes (controlIds f) x); simpl.
  - repeat split; try reflexivity. exists []. symmetry. apply app_nil_r.
  - repeat split; try reflexivity. exists [x]. reflexivity.
Qed.

Lemma FrameworkStep_facts (f g : Framework) :
  FrameworkStep f g ->
  frameworkFrame f g
  /\ (exists rest, controlIds g = controlIds f ++ rest)
  /\ (NoDup (controlIds f) -> NoDup (controlIds g))
  /\ (activeHasControls f -> activeHasControls g).
Proof.
  intros [f0 x | f0 s f1 H].
  - destruct (addControlToFramework_frame f0 x) as (Hf & Hs & Hr).
    split; [exact Hf |]. split; [exact Hr |].
    split; [apply FrameworkFacts.addControlToFramework_NoDup |].
    intros _ _. apply addControlToFramework_nonempty.
  - apply updateFrameworkStatus_ok_inv in H. destruct H as (-> & _ & Ha).
    unfold frameworkFrame, activeHasControls. simpl.
    split; [repeat split; reflexivity |].
    split; [exists []; symmetry; apply app_nil_r |].
    split; [auto |]. intros _ Hs. exact (Ha Hs).
Qed.

(** X10. Whatever sequence of [addControlToFramework] and successful
    [updateFrameworkStatus] calls a framework goes through, its
    identifier, type, name, version and description stay what they
    were, its controls stay where they are (the later list is the
    earlier one with ids appended: none is removed or reordered), a
    duplicate-free list stays duplicate-free, and if an active framework
    had controls to begin with then it has controls whenever it is
    active. *)
Theorem framework_evolution (f g : Framework) :
  FrameworkEvolves f g ->
  frameworkFrame f g
  /\ (exists rest, controlIds g = controlIds f ++ rest)
  /\ (NoDup (controlIds f) -> NoDup (controlIds g))
  /\ (activeHasControls f -> activeHasControls g).
Proof.
  induction 1 as [f | f g h _ IH Hs].
  - unfold frameworkFrame. split; [repeat split; reflexivity |].
    split; [exists []; symmetry; apply app_nil_r | auto].
  - apply FrameworkStep_facts in Hs.
    destruct IH as (Hf1 & (r1 & Hr1) & Hn1 & Ha1).
    destruct Hs as (Hf2 & (r2 & Hr2) & Hn2 & Ha2).
    split.
    + unfold frameworkFrame in *.
      destruct Hf1 as (? & ? & ? & ? & ?). destruct Hf2 as (? & ? & ? & ? & ?).
      repeat split; congruence.
    + split; [exists (r1 ++ r2); rewrite Hr2, Hr1, app_assoc; reflexivity |].
      split; auto.
Qed.

(** X11. Every framework the module produces (by [createFramework]
    followed by any operations) satisfies the invariants of the entity:
    its controls are free of duplicates, it has at least one control
    whenever it is active, its identifier and name are not blank and
    its version is two or three dot-separated digit runs. *)
Theorem built_framework_invariants (f : Framework) :
  Built f ->
  NoDup (controlIds f)
  /\ activeHasControls f
  /\ whitespaceOnly (id f) = false
  /\ whitespaceOnly (name f) = false
  /\ FactoryTerms.isVersion (version f).
Proof.
  induction 1 as [input f Hc | f x _ IH | f s f' _ IH Hu].
  - rewrite FactoryFacts.createFramework_closed in Hc.
    destruct (whitespaceOnly (in_id input)) eqn:E1; [discriminate |].
    destruct (whitespaceOnly (in_name input)) eqn:E2; [discriminate |].
    destruct (versionPattern_test (in_version input)) eqn:E3;
      [| discriminate].
    simpl in Hc. inversion Hc; subst; clear Hc.
    unfold activeHasControls. simpl.
    split; [constructor |]. split; [discriminate |].
    split; [exact E1 |]. split; [exact E2 |].
    apply FactoryFacts.versionPattern_test_iff. exact E3.
  - destruct IH as (Hn & Ha & Hi & Hm & Hv).
    destruct (FrameworkStep_facts (FStep_addControl f x))
      as ((Ei & _ & Em & Ev & _) & _ & Hn' & Ha').
    rewrite Ei, Em, Ev. auto.
  - destruct IH as (Hn & Ha & Hi & Hm & Hv).
    destruct (FrameworkStep_facts (FStep_status f s Hu))
      as ((Ei & _ & Em & Ev & _) & _ & Hn' & Ha').
    rewrite Ei, Em, Ev. auto.
Qed.

(** X12. Once a framework has a control, every status is reached from
    every status in two updates by way of Draft; in particular a
    deprecated framework is made active again by going through Draft,
    although the direct update is refused. *)
Theorem updateFrameworkStatus_via_draft (f : Framework) (s : FrameworkStatus) :
  controlIds f <> [] ->
  exists f1 f2,
    updateFrameworkStatus f Draft = ok f1
    /\ updateFrameworkStatus f1 s = ok f2
    /\ status f2 = s
    /\ controlIds f2 = controlIds f
    /\ frameworkFrame f f2.
Proof.
  intros Hne. exists (with_status f Draft), (with_status f s).
  split.
  - unfold updateFrameworkStatus. destruct (status f); reflexivity.
  - split.
    + unfold updateFrameworkStatus. simpl.
      destruct s, (controlIds f); simpl; try reflexivity. congruence.
    + unfold frameworkFrame. simpl. repeat split; reflexivity.
Qed.

(** X13. [addControlToFramework f x] has exactly the controls of [f]
    and [x]; the list grows by one when [x] is new and not at all
    otherwise; every control keeps its position; and the order of two
    additions does not matter for which controls the framework has. *)
Theorem addControlToFramework_membership (f : Framework) (x : ControlId) :
  (forall y, In y (controlIds (addControlToFramework f x))
             <-> y = x \/ In y (controlIds f))
  /\ List.length (controlIds (addControlToFramework f x))
     = (List.length (controlIds f)
        + (if includes (controlIds f) x then 0 else 1))%nat
  /\ (forall n y, nth_error (controlIds f) n = Some y ->
        nth_error (controlIds (addControlToFramework f x)) n = Some y)
  /\ (forall y z,
        In z (controlIds
                (addControlToFramework (addControlToFramework f x) y))
        <-> In z (controlIds
                    (addControlToFramework (addControlToFramework f y) x))).
Proof.
  assert (Hmem : forall g a y,
             In y (controlIds (addControlToFramework g a))
             <-> y = a \/ In y (controlIds g)).
  { intros g a y. unfold addControlToFramework.
    destruct (includes (controlIds g) a) eqn:E; simpl.
    - apply includes_In in E. split; [auto |]. intros [-> | H]; auto.
    - rewrite in_app_iff. simpl. split.
      + intros [H | [H | []]]; auto.
      + intros [-> | H]; auto. }
  split; [apply Hmem |]. split; [| split].
  - unfold addControlToFramework.
    destruct (includes (controlIds f) x); simpl.
    + lia.
    + rewrite length_app. reflexivity.
  - intros n y Hn. unfold addControlToFramework.
    destruct (includes (controlIds f) x); simpl; [exact Hn |].
    rewrite nth_error_app1; [exact Hn |].
    apply nth_error_Some. congruence.
  - intros y z. rewrite !Hmem. tauto.
Qed.

(** X14. Adding a control never blocks a status update and commutes
    with it: an update that succeeds on [f] succeeds on [f] with [x]
    added, with the same outcome as adding [x] afterwards; and the only
    error an update can give after an addition is INVALID_TRANSITION,
    the very error it gives before the addition. *)
Theorem updateFrameworkStatus_after_addControl
        (f : Framework) (x : ControlId) (s : FrameworkStatus) :
  (forall f', updateFrameworkStatus f s = ok f' ->
     updateFrameworkStatus (addControlToFramework f x) s
     = ok (addControlToFramework f' x))
  /\ (forall e, updateFrameworkStatus (addControlToFramework f x) s = err e ->
        code e = js "INVALID_TRANSITION"
        /\ status f = Deprecated /\ s = Active
        /\ updateFrameworkStatus f s = err e).
Proof.
  split.
  - intros f' H. apply updateFrameworkStatus_ok_inv in H.
    destruct H as (-> & Hn & _).
    pose proof (addControlToFramework_nonempty f x) as Hne.
    unfold updateFrameworkStatus, addControlToFramework in *. simpl.
    destruct (includes (controlIds f) x); simpl in *;
      destruct (status f), s; simpl;
      try reflexivity; try (exfalso; apply Hn; auto; fail);
      destruct (controlIds f ++ [x]) eqn:E; try reflexivity;
      try congruence;
      destruct (controlIds f); try reflexivity; congruence.
  - intros e H.
    pose proof (addControlToFramework_nonempty f x) as Hne.
    destruct (addControlToFramework_frame f x) as (_ & Hs & _).
    unfold updateFrameworkStatus in *. rewrite Hs in H.
    destruct (status f), s; simpl in *;
      destruct (controlIds (addControlToFramework f x)); simpl in *;
      try discriminate; try congruence;
      inversion H; subst; auto.
Qed.

End FrameworkLifecycle.

Module RiskLifecycle.

Import JSFacts.
Import RiskModel.
Import Lifecycle.
Import FactoryTerms.

Lemma calculateRiskScore_wellFormed (l i : RiskLevel) :
  wellFormedScore (calculateRiskScore l i).
Proof. destruct l, i; split; reflexivity. Qed.

Lemma updateRiskStatus_ok_inv (r r' : Risk) (s : RiskStatus) (clk : Clock) :
  run (updateRiskStatus r s) clk = ok r' ->
  r' = with_status r s /\ isClosed (status r) = false.
Proof.
  rewrite RiskFacts.updateRiskStatus_closed.
  destruct (isClosed (status r)); [discriminate |].
  destruct (match acceptedUntil s with
            | Some d => date_le d (DateOf (now clk))
            | None => false
            end); [discriminate |].
  intros H; inversion H; auto.
Qed.

Lemma RiskStep_facts (r r' : Risk) :
  RiskStep r r' ->
  riskFrame r r'
  /\ (isClosed (status r) = true -> status r' = status r)
  /\ (wellFormedScore (residualScore r) ->
      wellFormedScore (residualScore r')).
Proof.
  intros [r0 s clk r1 H | r0 l i].
  - apply updateRiskStatus_ok_inv in H. destruct H as [-> Hc].
    unfold riskFrame. simpl.
    split; [repeat split; reflexivity |].
    split; [congruence | auto].
  - unfold riskFrame. simpl.
    split; [repeat split; reflexivity |].
    split; [reflexivity |].
    intros _. apply calculateRiskScore_wellFormed.
Qed.

Lemma RiskEvolves_facts (r r' : Risk) :
  RiskEvolves r r' ->
  riskFrame r r'
  /\ (isClosed (status r) = true -> status r' = status r)
  /\ (wellFormedScore (residualScore r) ->
      wellFormedScore (residualScore r')).
Proof.
  induction 1 as [r | r s t _ IH Hs].
  - unfold riskFrame. split; [repeat split; reflexivity | auto].
  - apply RiskStep_facts in Hs.
    destruct IH as (Hf1 & Hc1 & Hw1). destruct Hs as (Hf2 & Hc2 & Hw2).
    split.
    + unfold riskFrame in *.
      destruct Hf1 as (? & ? & ? & ? & ? & ?).
      destruct Hf2 as (? & ? & ? & ? & ? & ?).
      repeat split; congruence.
    + split; [| auto].
      intros Hc. rewrite <- (Hc1 Hc). apply Hc2. rewrite (Hc1 Hc). exact Hc.
Qed.

(** X15. Whatever sequence of status updates and residual-score updates
    a risk goes through, at whatever times, its identifier, title,
    description, category, owner and inherent score stay what they
    were; and once its status is Closed the status stays that very
    Closed status for ever: every later status update is refused,
    while the residual score can still be replaced. *)
Theorem risk_evolution (r r' : Risk) :
  RiskEvolves r r' ->
  riskFrame r r'
  /\ (isClosed (status r) = true ->
      status r' = status r
      /\ (forall s clk, exists e,
             run (updateRiskStatus r' s) clk = err e
             /\ code e = js "INVALID_TRANSITION")
      /\ (forall l i,
             residualScore (updateResidualScore r' l i)
             = calculateRiskScore l i
             /\ status (updateResidualScore r' l i) = status r)).
Proof.
  intros H. destruct (RiskEvolves_facts H) as (Hf & Hc & _).
  split; [exact Hf |]. intros Hcl. specialize (Hc Hcl).
  split; [exact Hc |]. split.
  - intros s clk. rewrite RiskFacts.updateRiskStatus_closed, Hc, Hcl.
    eexists; split; reflexivity.
  - intros l i. simpl. auto.
Qed.

(** X16. A risk that [createRisk] returned keeps, through every
    sequence of operations, the identifier it was created with and the
    inherent score of the levels it was created with, and both its
    scores stay consistent: the value is the product of the ordinals of
    the two levels and the label names the band of the value. *)
Theorem created_risk_invariants
        (input : CreateRiskInput) (clk : Clock) (r r' : Risk) :
  run (createRisk input) clk = ok r ->
  RiskEvolves r r' ->
  id r' = in_id input
  /\ inherentScore r'
     = calculateRiskScore (in_likelihood input) (in_impact input)
  /\ wellFormedScore (inherentScore r')
  /\ wellFormedScore (residualScore r').
Proof.
  intros Hc He.
  destruct (RiskFacts.createRisk_ok_inv _ _ Hc) as [Hid Ht].
  rewrite (RiskFacts.createRisk_closed _ clk Hid Ht) in Hc.
  inversion Hc; subst; clear Hc.
  destruct (RiskEvolves_facts He) as ((Ei & _ & _ & _ & _ & Es) & _ & Hw).
  simpl in *. rewrite Ei, Es.
  split; [reflexivity |]. split; [reflexivity |].
  split; [apply calculateRiskScore_wellFormed |].
  apply Hw, calculateRiskScore_wellFormed.
Qed.

(** X17. Residual-score updates overwrite one another (the last one
    wins) and commute with status updates: updating the residual score
    and then the status gives what updating the status and then the
    residual score gives, error for error. *)
Theorem updateResidualScore_composition
        (r : Risk) (l i l' i' : RiskLevel) (s : RiskStatus) (clk : Clock) :
  updateResidualScore (updateResidualScore r l i) l' i'
  = updateResidualScore r l' i'
  /\ run (updateRiskStatus (updateResidualScore r l i) s) clk
     = map (run (updateRiskStatus r s) clk)
           (fun r' => updateResidualScore r' l i).
Proof.
  split; [reflexivity |].
  rewrite !RiskFacts.updateRiskStatus_closed. simpl.
  destruct (isClosed (status r)); [reflexivity |].
  destruct (match acceptedUntil s with
            | Some d => date_le d (DateOf (now clk))
            | None => false
            end); reflexivity.
Qed.

(** X18. The outcome of [updateRiskStatus] depends on the clock through
    its next reading only, and the expiry guard is monotone in time: an
    update refused at one time is refused, with the same error, at
    every later time, and an update accepted at one time is accepted at
    every earlier time. *)
Theorem updateRiskStatus_time
        (r : Risk) (s : RiskStatus) (clk clk' : Clock) :
  (now clk <= now clk')%Z ->
  (forall e, run (updateRiskStatus r s) clk = err e ->
             run (updateRiskStatus r s) clk' = err e)
  /\ (forall r', run (updateRiskStatus r s) clk' = ok r' ->
                 run (updateRiskStatus r s) clk = ok r')
  /\ (now clk = now clk' ->
      run (updateRiskStatus r s) clk = run (updateRiskStatus r s) clk').
Proof.
  intros Hle. rewrite !RiskFacts.updateRiskStatus_closed.
  destruct (isClosed (status r)).
  - repeat split; auto; discriminate.
  - destruct (acceptedUntil s) as [[x|]|]; simpl.
    + destruct (Z.leb_spec x (now clk)), (Z.leb_spec x (now clk'));
        repeat split; auto; try discriminate; try lia.
    + repeat split; auto.
    + repeat split; auto.
Qed.

End RiskLifecycle.

(* ===================================================================== *)
(** * Further properties: risk scores                                     *)
(* ===================================================================== *)

Module ScoreFacts.

Import RiskModel.
Import FactoryTerms.

(** X19. The risk score is symmetric in its two levels, lies between 1
    and 16, and grows with either level, in value and in band.  Its
    label tells the band of its value, and is "Critical" for Critical by
    Critical only and "Low" only when one level is Low and the other
    Low or Medium. *)
Theorem calculateRiskScore_order :
  (forall l i,
      value (calculateRiskScore l i) = value (calculateRiskScore i l)
      /\ label (calculateRiskScore l i) = label (calculateRiskScore i l))
  /\ (forall l i, (1 <= value (calculateRiskScore l i) <= 16)%Z)
  /\ (forall l l' i i',
        level_le l l' -> level_le i i' ->
        (value (calculateRiskScore l i)
         <= value (calculateRiskScore l' i'))%Z
        /\ level_le (band (value (calculateRiskScore l i)))
                    (band (value (calculateRiskScore l' i'))))
  /\ (forall l i b,
        label (calculateRiskScore l i) = levelName b
        <-> band (value (calculateRiskScore l i)) = b)
  /\ (forall l i,
        label (calculateRiskScore l i) = js "Critical"
        <-> l = Critical /\ i = Critical)
  /\ (forall l i,
        label (calculateRiskScore l i) = js "Low"
        <-> (l = Low /\ (i = Low \/ i = Medium))
            \/ (l = Medium /\ i = Low)).
Proof.
  split; [intros l i; destruct l, i; split; reflexivity |].
  split; [intros l i; destruct l, i; simpl; lia |].
  split.
  { intros l l' i i' Hl Hi. unfold level_le in *.
    destruct l, l', i, i'; simpl in *; split; lia. }
  split.
  { intros l i b. destruct l, i, b; simpl; split;
      intros H; try reflexivity; discriminate. }
  split.
  - intros l i. destruct l, i; simpl; split;
      try discriminate; try (intros [? ?]; discriminate); auto.
  - intros l i. destruct l, i; simpl; split;
      try discriminate; auto;
      try (intros [[? [? | ?]] | [? ?]]; discriminate).
Qed.

End ScoreFacts.

(* ===================================================================== *)
(** * Further properties: evidence over time                              *)
(* ===================================================================== *)

Module EvidenceLifecycle.

Import JSFacts.
Import EvidenceModel.

(** X20. As time passes the status of an evidence either stays what it
    was or becomes Expired, and Expired is permanent: with a later
    clock reading an expired evidence is still expired, and an evidence
    that is not expired has the status it had before. *)
Theorem getEvidenceStatus_time (e : Evidence) (clk clk' : Clock) :
  (now clk <= now clk')%Z ->
  (run (getEvidenceStatus e) clk = Expired ->
   run (getEvidenceStatus e) clk' = Expired)
  /\ (run (getEvidenceStatus e) clk' <> Expired ->
      run (getEvidenceStatus e) clk' = run (getEvidenceStatus e) clk).
Proof.
  intros Hle. rewrite !EvidenceFacts.getEvidenceStatus_closed.
  destruct (expiresAt e) as [[x|]|]; simpl.
  - destruct (Z.ltb_spec x (now clk)), (Z.ltb_spec x (now clk'));
      split; intros Hs; try reflexivity; try congruence; lia.
  - split; [tauto | reflexivity].
  - split; [tauto | reflexivity].
Qed.

(** X21. The status read back tells what the evidence is: it is
    Expired exactly when the expiry lies before the current time,
    Rejected exactly for an unexpired automated check that failed, and
    Pending exactly for an unexpired automated check that was skipped.
    An evidence without expiry, or with an invalid expiry date, is
    never Expired. *)
Theorem getEvidenceStatus_inversion (e : Evidence) (clk : Clock) :
  (run (getEvidenceStatus e) clk = Expired <-> expiredAt e (now clk))
  /\ (run (getEvidenceStatus e) clk = Rejected
      <-> ~ expiredAt e (now clk)
          /\ exists i n l r, evidenceType e = AutomatedCheck i n l (Failed r))
  /\ (run (getEvidenceStatus e) clk = Pending
      <-> ~ expiredAt e (now clk)
          /\ exists i n l r, evidenceType e = AutomatedCheck i n l (Skipped r))
  /\ (expiresAt e = None \/ expiresAt e = Some InvalidDate ->
      run (getEvidenceStatus e) clk <> Expired).
Proof.
  rewrite EvidenceFacts.getEvidenceStatus_closed.
  assert (Hex : match expiresAt e with
                | Some d => date_lt d (DateOf (now clk))
                | None => false
                end = true <-> expiredAt e (now clk)).
  { unfold expiredAt. destruct (expiresAt e) as [d|].
    - rewrite date_lt_before. split.
      + intros H. exists d. auto.
      + intros (d' & Hd & Hb). inversion Hd. subst. exact Hb.
    - split; [discriminate | intros (d' & Hd & _); discriminate]. }
  destruct (match expiresAt e with
            | Some d => date_lt d (DateOf (now clk))
            | None => false
            end) eqn:E.
  - assert (Hx : expiredAt e (now clk)) by (apply Hex; reflexivity).
    split; [tauto |].
    split; [split; [discriminate | tauto] |].
    split; [split; [discriminate | tauto] |].
    intros [H | H]; rewrite H in E; discriminate.
  - assert (Hx : ~ expiredAt e (now clk)).
    { intros H. apply Hex in H. discriminate. }
    destruct (evidenceType e) as [u t|u t|i n l [|r|r]|u t n];
      (split; [split; [discriminate | tauto] |]);
      (split; [| split; [| intros _; discriminate]]);
      (split;
       [ intros H;
         first [ discriminate
               | split; [exact Hx | do 4 eexists; reflexivity] ]
       | intros (_ & i' & n' & l' & r' & Hty);
         first [ reflexivity | discriminate ] ]).
Qed.

(** X22. An evidence that [createEvidence] returned is the input,
    field for field; its expiry, if it has a valid one, lies strictly
    after the time of creation, and its collection date, if valid, not
    after it; so at the time of creation or before it is not Expired. *)
Theorem created_evidence_fresh
        (input : CreateEvidenceInput) (clk : Clock) (e : Evidence) :
  run (createEvidence input) clk = ok e ->
  e = evidenceOf input
  /\ whitespaceOnly (id e) = false
  /\ (forall x, expiresAt e = Some (DateOf x) -> (now clk < x)%Z)
  /\ (forall y, collectedAt e = DateOf y ->
        (y <= collectionCheckTime input clk)%Z)
  /\ (forall clk', (now clk' <= now clk)%Z ->
        run (getEvidenceStatus e) clk' <> Expired).
Proof.
  rewrite EvidenceFacts.createEvidence_closed.
  destruct (idFails input) eqn:E1; [discriminate |].
  destruct (expiryFails input (now clk)) eqn:E2; [discriminate |].
  destruct (collectionFails input (collectionCheckTime input clk)) eqn:E3;
    [discriminate |].
  simpl. intros H. inversion H; subst; clear H.
  unfold idFails, expiryFails, collectionFails, evidenceOf in *. simpl.
  split; [reflexivity |]. split; [exact E1 |].
  split; [| split].
  - intros x Hx. rewrite Hx in E2. apply Z.leb_gt in E2. exact E2.
  - intros y Hy. rewrite Hy in E3. apply Z.ltb_ge in E3. exact E3.
  - intros clk' Hle. rewrite EvidenceFacts.getEvidenceStatus_closed. simpl.
    destruct (in_expiresAt input) as [[x|]|]; simpl.
    + apply Z.leb_gt in E2.
      destruct (Z.ltb_spec x (now clk')); [lia |].
      destruct (in_evidenceType input) as [| |? ? ? [| |]|]; discriminate.
    + destruct (in_evidenceType input) as [| |? ? ? [| |]|]; discriminate.
    + destruct (in_evidenceType input) as [| |? ? ? [| |]|]; discriminate.
Qed.

(** X23. The date checks let invalid dates through: a comparison with
    an invalid date is false, so [createEvidence] accepts an invalid
    collection date and an invalid expiry (such an evidence is never
    Expired), and [updateRiskStatus] accepts an acceptance whose expiry
    is an invalid date, at any time. *)
Theorem invalid_dates_pass :
  (forall (i : jsstring) (c : ControlId) (ty : EvidenceType)
          (de : jsstring) (clk clk' : Clock),
      whitespaceOnly i = false ->
      run (createEvidence
             (mkCreateEvidenceInput i c ty InvalidDate (Some InvalidDate) de))
          clk
      = ok (mkEvidence i c ty InvalidDate (Some InvalidDate) de)
      /\ run (getEvidenceStatus
                (mkEvidence i c ty InvalidDate (Some InvalidDate) de)) clk'
         <> Expired)
  /\ (forall (r : RiskModel.Risk) (u reason : jsstring) (clk : Clock),
        isClosed (RiskModel.status r) = false ->
        run (RiskModel.updateRiskStatus
               r (RiskModel.Accepted u reason InvalidDate)) clk
        = ok (RiskModel.with_status
                r (RiskModel.Accepted u reason InvalidDate))).
Proof.
  split.
  - intros i c ty de clk clk' Hi. split.
    + rewrite EvidenceFacts.createEvidence_closed.
      unfold idFails, expiryFails, collectionFails. simpl.
      rewrite Hi. reflexivity.
    + rewrite EvidenceFacts.getEvidenceStatus_closed. simpl.
      destruct ty as [| |? ? ? [| |]|]; discriminate.
  - intros r u reason clk Hc.
    rewrite RiskFacts.updateRiskStatus_closed, Hc. reflexivity.
Qed.

End EvidenceLifecycle.

(* ===================================================================== *)
(** * Further properties: labels                                          *)
(* ===================================================================== *)

Module LabelFacts.

Import LabelModel.
Import LabelTerms.

(** X24. The five framework types have five different labels: the label
    tells the type. *)
Theorem getFrameworkTypeLabel_injective
        (a b : FrameworkModel.FrameworkType) :
  getFrameworkTypeLabel a = getFrameworkTypeLabel b <-> a = b.
Proof.
  split; [| intros ->; reflexivity].
  destruct a, b; intros H; try reflexivity; discriminate.
Qed.

Lemma js_inj (a b : string) : js a = js b -> a = b.
Proof.
  unfold js. intros H.
  rewrite <- (string_of_list_ascii_of_string a),
          <- (string_of_list_ascii_of_string b).
  f_equal.
  revert H. generalize (list_ascii_of_string b).
  induction (list_ascii_of_string a) as [|x l IH]; intros [|y l'] H;
    try discriminate; [reflexivity |].
  simpl in H. injection H as Hxy Hl. f_equal; [| apply IH; exact Hl].
  rewrite <- (ascii_N_embedding x), <- (ascii_N_embedding y), Hxy.
  reflexivity.
Qed.

(** The decimal text of a length tells the length. *)
Lemma lengthToString_inj (n m : nat) :
  lengthToString n = lengthToString m -> n = m.
Proof.
  assert (Hnn : forall k, Nat.to_uint k <> Decimal.Nil).
  { intros k Hk. pose proof (DecimalNat.Unsigned.of_to k) as H.
    rewrite Hk in H. simpl in H. subst k. discriminate. }
  unfold lengthToString. intros H. apply js_inj in H.
  pose proof (NilZero.usu _ (Hnn n)) as Hn.
  pose proof (NilZero.usu _ (Hnn m)) as Hm.
  rewrite H in Hn. rewrite Hn in Hm. injection Hm as Hm.
  apply DecimalNat.Unsigned.to_uint_inj. exact Hm.
Qed.

Section Builtins.

Variable isoString : Z -> jsstring.
Variable numberToString : number -> jsstring.

Ltac label_cases :=
  repeat match goal with
         | d : Date |- _ => destruct d
         end;
  simpl; intros; unfold jp_notImplemented in *;
  try reflexivity; try discriminate; try congruence.

(** X25. [getControlStatusLabel] renders every status except an
    Implemented one whose date is invalid, on which [toISOString]
    throws.  The label of a Failed status does not show when the
    failure was detected, and two statuses with the same label are of
    the same variant. *)
Theorem getControlStatusLabel_spec :
  (forall s,
      getControlStatusLabel isoString numberToString s = None
      <-> controlLabelDate s = Some InvalidDate)
  /\ (forall reason d d',
        getControlStatusLabel isoString numberToString
                              (ControlModel.Failed reason d)
        = getControlStatusLabel isoString numberToString
                                (ControlModel.Failed reason d'))
  /\ (forall s s' l,
        getControlStatusLabel isoString numberToString s = Some l ->
        getControlStatusLabel isoString numberToString s' = Some l ->
        controlVariant s = controlVariant s').
Proof.
  split; [| split].
  - intros s. destruct s; label_cases; split; label_cases.
  - reflexivity.
  - intros s s' l. destruct s, s'; label_cases.
Qed.

(** X26. [getEvidenceTypeLabel] renders every evidence type except a
    screenshot or a manual review whose date is invalid, on which
    [toISOString] throws.  The label of a document does not show its
    URL, the label of an automated check shows its name and the kind of
    its result but neither the integration, nor the time of the run,
    nor the reason of a failure; and two evidence types with the same
    label are of the same variant. *)
Theorem getEvidenceTypeLabel_spec :
  (forall ty,
      getEvidenceTypeLabel isoString ty = None
      <-> evidenceLabelDate ty = Some InvalidDate)
  /\ (forall u u' ft,
        getEvidenceTypeLabel isoString (EvidenceModel.Document u ft)
        = getEvidenceTypeLabel isoString (EvidenceModel.Document u' ft))
  /\ (forall i i' n d d' r r',
        checkResultType r = checkResultType r' ->
        getEvidenceTypeLabel isoString
                             (EvidenceModel.AutomatedCheck i n d r)
        = getEvidenceTypeLabel isoString
                               (EvidenceModel.AutomatedCheck i' n d' r'))
  /\ (forall ty ty' l,
        getEvidenceTypeLabel isoString ty = Some l ->
        getEvidenceTypeLabel isoString ty' = Some l ->
        evidenceVariant ty = evidenceVariant ty').
Proof.
  split; [| split; [| split]].
  - intros ty. destruct ty; label_cases; split; label_cases.
  - reflexivity.
  - intros i i' n d d' r r' H. simpl. rewrite H. reflexivity.
  - intros ty ty' l. destruct ty, ty'; label_cases.
Qed.

(** X27. [getRiskStatusLabel] renders every status except an
    Identified, Assessed or Accepted one whose date is invalid, on
    which [toISOString] throws.  The label of a Mitigated status shows
    how many controls there are, not which, nor when; the label of a
    Closed status does not show when the risk was closed; and two
    statuses with the same label are of the same variant. *)
Theorem getRiskStatusLabel_spec :
  (forall s,
      getRiskStatusLabel isoString s = None
      <-> riskLabelDate s = Some InvalidDate)
  /\ (forall d d' ids ids',
        getRiskStatusLabel isoString (RiskModel.Mitigated d ids)
        = getRiskStatusLabel isoString (RiskModel.Mitigated d' ids')
        <-> List.length ids = List.length ids')
  /\ (forall d d' resolution,
        getRiskStatusLabel isoString (RiskModel.Closed d resolution)
        = getRiskStatusLabel isoString (RiskModel.Closed d' resolution))
  /\ (forall s s' l,
        getRiskStatusLabel isoString s = Some l ->
        getRiskStatusLabel isoString s' = Some l ->
        riskVariant s = riskVariant s').
Proof.
  split; [| split; [| split]].
  - intros s. destruct s; label_cases; split; label_cases.
  - intros d d' ids ids'. simpl. split.
    + intros H. injection H as H.
      apply app_inv_tail in H.
      apply lengthToString_inj. exact H.
    + intros ->. reflexivity.
  - reflexivity.
  - intros s s' l. destruct s, s'; label_cases.
Qed.

End Builtins.

End LabelFacts.

(* ===================================================================== *)
(** * Further scenarios                                                   *)
(* ===================================================================== *)

(** The properties of the life cycles, applied to concrete entities. *)

Module LifecycleScenarios.

Import Lifecycle.

(** A control that fails and is then declared not applicable is still
    the same control. *)
Lemma control_evolution_witness :
  controlFrame
    (Samples.control ControlModel.NotImplemented)
    (Samples.control (ControlModel.NotApplicable (js "out of scope"))).
Proof.
  apply (ControlLifecycle.control_evolution
           (c := Samples.control ControlModel.NotImplemented)
           (c' := Samples.control
                    (ControlModel.NotApplicable (js "out of scope")))).
  apply CEvolves_step
    with (d := Samples.control
                 (ControlModel.Failed (js "finding") (DateOf 1000))).
  - apply CEvolves_step with (d := Samples.control ControlModel.NotImplemented).
    + apply CEvolves_refl.
    + apply CStep_status
        with (s := ControlModel.Failed (js "finding") (DateOf 1000)).
      reflexivity.
  - apply CStep_status with (s := ControlModel.NotApplicable (js "out of scope")).
    reflexivity.
Defined.

(** A draft framework gets a control, is activated and gets a second
    control: the first control is still in first place. *)
Lemma framework_evolution_witness :
  exists rest,
    FrameworkModel.controlIds
      (Samples.framework FrameworkModel.Active [js "ctl-1"; js "ctl-2"])
    = FrameworkModel.controlIds
        (Samples.framework FrameworkModel.Draft [js "ctl-1"]) ++ rest.
Proof.
  apply (FrameworkLifecycle.framework_evolution
           (f := Samples.framework FrameworkModel.Draft [js "ctl-1"])
           (g := Samples.framework FrameworkModel.Active
                                   [js "ctl-1"; js "ctl-2"])).
  apply FEvolves_step
    with (g := Samples.framework FrameworkModel.Active [js "ctl-1"]).
  - apply FEvolves_step
      with (g := Samples.framework FrameworkModel.Draft [js "ctl-1"]).
    + apply FEvolves_refl.
    + apply FStep_status with (s := FrameworkModel.Active). reflexivity.
  - exact (FStep_addControl
             (Samples.framework FrameworkModel.Active [js "ctl-1"])
             (js "ctl-2")).
Defined.

(** The framework made from the sample input, with one control. *)
Lemma built_framework_invariants_witness :
  NoDup (FrameworkModel.controlIds
           (FrameworkModel.addControlToFramework
              (FactoryTerms.frameworkOf Samples.frameworkInput)
              (js "ctl-1")))
  /\ FactoryTerms.isVersion (js "2.0").
Proof.
  destruct (FrameworkLifecycle.built_framework_invariants
              (f := FrameworkModel.addControlToFramework
                      (FactoryTerms.frameworkOf Samples.frameworkInput)
                      (js "ctl-1")))
    as (Hn & _ & _ & _ & Hv).
  - apply Built_addControl.
    apply Built_create with (input := Samples.frameworkInput). reflexivity.
  - split; [exact Hn | exact Hv].
Defined.

(** A deprecated framework with a control is active again after two
    updates. *)
Lemma updateFrameworkStatus_via_draft_witness :
  exists f1 f2,
    FrameworkModel.updateFrameworkStatus
      (Samples.framework FrameworkModel.Deprecated [js "ctl-1"])
      FrameworkModel.Draft = ok f1
    /\ FrameworkModel.updateFrameworkStatus f1 FrameworkModel.Active = ok f2
    /\ FrameworkModel.status f2 = FrameworkModel.Active.
Proof.
  destruct (@FrameworkLifecycle.updateFrameworkStatus_via_draft
              (Samples.framework FrameworkModel.Deprecated [js "ctl-1"])
              FrameworkModel.Active)
    as (f1 & f2 & H1 & H2 & H3 & _).
  - discriminate.
  - exists f1, f2. auto.
Defined.

(** A closed risk whose residual score is lowered is still closed. *)
Lemma risk_evolution_witness :
  RiskModel.status
    (RiskModel.updateResidualScore
       (Samples.risk (RiskModel.Closed (DateOf 1000) (js "fixed")))
       RiskModel.Low RiskModel.Low)
  = RiskModel.Closed (DateOf 1000) (js "fixed").
Proof.
  apply (RiskLifecycle.risk_evolution
           (r := Samples.risk (RiskModel.Closed (DateOf 1000) (js "fixed")))
           (r' := RiskModel.updateResidualScore
                    (Samples.risk
                       (RiskModel.Closed (DateOf 1000) (js "fixed")))
                    RiskModel.Low RiskModel.Low)).
  - apply REvolves_step
      with (s := Samples.risk (RiskModel.Closed (DateOf 1000) (js "fixed"))).
    + apply REvolves_refl.
    + apply RStep_residual.
  - reflexivity.
Defined.

(** The sample risk, assessed at 6000 and then given a lower residual
    score, still has the inherent score it was created with. *)
Lemma created_risk_invariants_witness :
  RiskModel.inherentScore
    (RiskModel.updateResidualScore
       (RiskModel.with_status
          (Samples.risk (RiskModel.Identified (DateOf 5000)))
          (RiskModel.Assessed (DateOf 6000) (js "user-2")))
       RiskModel.Low RiskModel.Medium)
  = RiskModel.calculateRiskScore RiskModel.High RiskModel.Critical.
Proof.
  apply (@RiskLifecycle.created_risk_invariants
           Samples.riskInput (frozen 5000)
           (Samples.risk (RiskModel.Identified (DateOf 5000)))
           (RiskModel.updateResidualScore
              (RiskModel.with_status
                 (Samples.risk (RiskModel.Identified (DateOf 5000)))
                 (RiskModel.Assessed (DateOf 6000) (js "user-2")))
              RiskModel.Low RiskModel.Medium)).
  - reflexivity.
  - apply REvolves_step
      with (s := RiskModel.with_status
                   (Samples.risk (RiskModel.Identified (DateOf 5000)))
                   (RiskModel.Assessed (DateOf 6000) (js "user-2"))).
    + apply REvolves_step
        with (s := Samples.risk (RiskModel.Identified (DateOf 5000))).
      * apply REvolves_refl.
      * apply RStep_status
          with (s := RiskModel.Assessed (DateOf 6000) (js "user-2"))
               (clk := frozen 6000).
        reflexivity.
    + apply RStep_residual.
Defined.

(** An acceptance that has expired at 5000 has expired at 6000. *)
Lemma updateRiskStatus_time_witness :
  run (RiskModel.updateRiskStatus
         (Samples.risk (RiskModel.Identified (DateOf 1000)))
         (RiskModel.Accepted (js "user-1") (js "low") (DateOf 5000)))
      (frozen 6000)
  = err RiskModel.err_acceptance.
Proof.
  assert (H : (now (frozen 5000) <= now (frozen 6000))%Z)
    by (unfold now, frozen; lia).
  apply (proj1 (@RiskLifecycle.updateRiskStatus_time
                  (Samples.risk (RiskModel.Identified (DateOf 1000)))
                  (RiskModel.Accepted (js "user-1") (js "low") (DateOf 5000))
                  (frozen 5000) (frozen 6000) H)).
  reflexivity.
Defined.

(** An evidence that has expired at 5000 has expired at 6000. *)
Lemma getEvidenceStatus_time_witness :
  run (EvidenceModel.getEvidenceStatus
         (Samples.evidence Samples.passedCheck (Some (DateOf 4999))))
      (frozen 6000)
  = EvidenceModel.Expired.
Proof.
  assert (H : (now (frozen 5000) <= now (frozen 6000))%Z)
    by (unfold now, frozen; lia).
  apply (proj1 (@EvidenceLifecycle.getEvidenceStatus_time
                  (Samples.evidence Samples.passedCheck (Some (DateOf 4999)))
                  (frozen 5000) (frozen 6000) H)).
  reflexivity.
Defined.

(** An evidence created at 5000 with an expiry at 5001. *)
Lemma created_evidence_fresh_witness :
  run (EvidenceModel.createEvidence
         (Samples.evidenceInput (js "ev-1") (DateOf 5000)
                                (Some (DateOf 5001))))
      (frozen 5000)
  = ok (evidenceOf (Samples.evidenceInput (js "ev-1") (DateOf 5000)
                                          (Some (DateOf 5001))))
  /\ (now (frozen 5000) < 5001)%Z.
Proof.
  split; [reflexivity |].
  destruct (@EvidenceLifecycle.created_evidence_fresh
              (Samples.evidenceInput (js "ev-1") (DateOf 5000)
                                     (Some (DateOf 5001)))
              (frozen 5000)
              (evidenceOf
                 (Samples.evidenceInput (js "ev-1") (DateOf 5000)
                                        (Some (DateOf 5001))))
              eq_refl)
    as (_ & _ & Hx & _).
  apply (Hx 5001%Z). reflexivity.
Defined.

End LifecycleScenarios.

(* ===================================================================== *)
(** * Further properties: identifiers                                     *)
(* ===================================================================== *)

Module IdentifierFacts.

Import JSFacts.

(** X28. An identifier is accepted as soon as it holds one character
    that is not whitespace, and it is kept exactly as given, leading and
    trailing whitespace included: nothing is trimmed, so an identifier
    and the same identifier with blanks around it are two different
    identifiers, and a framework takes both as controls. *)
Theorem createId_keeps_padding
        (a b typeName : jsstring) (c : code_unit) (f : FrameworkModel.Framework) :
  isWhiteSpace c = false ->
  createId (a ++ c :: b) typeName = ok (a ++ c :: b)
  /\ createId (js " " ++ a ++ c :: b) typeName = ok (js " " ++ a ++ c :: b)
  /\ js " " ++ a ++ c :: b <> a ++ c :: b
  /\ (~ In (a ++ c :: b) (FrameworkModel.controlIds f) ->
      ~ In (js " " ++ a ++ c :: b) (FrameworkModel.controlIds f) ->
      FrameworkModel.controlIds
        (FrameworkModel.addControlToFramework
           (FrameworkModel.addControlToFramework f (a ++ c :: b))
           (js " " ++ a ++ c :: b))
      = FrameworkModel.controlIds f ++ [a ++ c :: b; js " " ++ a ++ c :: b]).
Proof.
  intros Hc.
  assert (Hw : forall p, whitespaceOnly (p ++ a ++ c :: b) = false).
  { intros p. unfold whitespaceOnly. rewrite !forallb_app. simpl.
    rewrite Hc. rewrite andb_false_r. simpl. apply andb_false_r. }
  assert (Hne : js " " ++ a ++ c :: b <> a ++ c :: b).
  { intros H. apply (f_equal (@List.length _)) in H.
    simpl in H. lia. }
  split; [rewrite ValueObjectsFacts.createId_spec;
          change (a ++ c :: b) with ([] ++ a ++ c :: b) at 1;
          rewrite (Hw []); reflexivity |].
  split; [rewrite ValueObjectsFacts.createId_spec; rewrite (Hw (js " "));
          reflexivity |].
  split; [exact Hne |].
  intros H1 H2.
  rewrite (FrameworkFacts.addControlToFramework_absent f _ H1).
  rewrite FrameworkFacts.addControlToFramework_absent.
  - simpl. rewrite <- app_assoc. reflexivity.
  - simpl. rewrite in_app_iff. simpl. intros [H | [H | []]].
    + exact (H2 H).
    + apply Hne. symmetry. exact H.
Qed.

(** The identifiers ["x"] and [" x"]. *)
Lemma createId_keeps_padding_witness :
  controlId (js " x") = ok (js " x")
  /\ FrameworkModel.controlIds
       (FrameworkModel.addControlToFramework
          (FrameworkModel.addControlToFramework
             (Samples.framework FrameworkModel.Draft []) (js "x"))
          (js " x"))
     = [js "x"; js " x"].
Proof.
  assert (Hc : isWhiteSpace 0x78%N = false) by reflexivity.
  destruct (@createId_keeps_padding
              [] [] (js "ControlId") 0x78%N
              (Samples.framework FrameworkModel.Draft []) Hc)
    as (_ & H2 & _ & H4).
  split; [exact H2 |].
  apply H4; simpl; tauto.
Defined.

End IdentifierFacts.
